(** * FITC inference for Gaussian-process regression (shogun)

    A shallow embedding of [src/shogun/machine/gp/FITCInferenceMethod.cpp]
    and the properties of its accessors.

    Layout of the development:
    - [Float64]: the arithmetic of [float64_t], kept abstract (only the two
      laws that IEEE-754 binary64 and the reals share are assumed);
    - [Dense]: Eigen expressions as sized coefficient functions, with the
      element-wise operations, products, [LLT] and triangular solves the
      translated file calls;
    - [SGVector] / [SGMatrix]: shogun's owned buffers (column major);
    - the engine record and the [Run] monad (state, exceptions, event log);
    - the methods of [FITCInferenceMethod], one definition per method;
    - the real-number instance used to evaluate the model on concrete data;
    - the formulas of the specification, written over plain lists;
    - the properties, general first, then evaluated on a scenario with one
      training and one inducing point. *)

From Stdlib Require Import List ZArith Bool String Lia Reals Lra.
Import ListNotations.

Set Implicit Arguments.

(** ** Arithmetic of [float64_t] *)

Class Float64 : Type := {
  float64_t : Type;
  (** conversion of an integer ([index_t] operands, the literals 0.0, 1.0, 2.0) *)
  of_int : Z -> float64_t;
  fadd : float64_t -> float64_t -> float64_t;
  fsub : float64_t -> float64_t -> float64_t;
  fmul : float64_t -> float64_t -> float64_t;
  fdiv : float64_t -> float64_t -> float64_t;
  fneg : float64_t -> float64_t;
  fsqrt : float64_t -> float64_t;
  fexp : float64_t -> float64_t;
  flog : float64_t -> float64_t;
  Math_PI : float64_t;
  (** [x <= y] and [x < y] *)
  fle : float64_t -> float64_t -> bool;
  flt : float64_t -> float64_t -> bool;
  (** laws valid both for binary64 (one NaN) and for the reals *)
  fmul_comm : forall x y, fmul x y = fmul y x;
  fmul_1_l : forall x, fmul (of_int 1) x = x
}.

Declare Scope f64_scope.
Delimit Scope f64_scope with f64.
Infix "+" := fadd : f64_scope.
Infix "-" := fsub : f64_scope.
Infix "*" := fmul : f64_scope.
Infix "/" := fdiv : f64_scope.
Notation "- x" := (fneg x) : f64_scope.

Section Arithmetic.
Context {FA : Float64}.

Definition f0 : float64_t := of_int 0.
Definition f1 : float64_t := of_int 1.
Definition f2 : float64_t := of_int 2.

(** [Math::sq] *)
Definition Math_sq (x : float64_t) : float64_t := (x * x)%f64.

(** Eigen's reduction [sum()]: zero on an empty range, otherwise the first
    coefficient accumulated with the following ones in index order. *)
Definition sum_list (l : list float64_t) : float64_t :=
  match l with
  | [] => f0
  | x :: xs => fold_left fadd xs x
  end.

(** ** shogun buffers *)

(** [SGVector<float64_t>]: [vlen] is the length of the buffer. *)
Definition SGVector : Type := list float64_t.
Definition vlen (v : SGVector) : nat := List.length v.

(** [SGMatrix<float64_t>]: column-major buffer with its dimensions. *)
Record SGMatrix : Type := mkSGMatrix {
  num_rows : nat;
  num_cols : nat;
  matrix : list float64_t
}.

(** ** Eigen dense expressions

    An expression is its dimensions and its coefficient function.  Eigen
    asserts that the dimensions of operands agree; the model is total: an
    operation takes its dimensions from its left operand, and a look-up
    outside a mapped buffer reads zero. *)

Record Dense : Type := mkDense {
  rows : nat;
  cols : nat;
  coeff : nat -> nat -> float64_t
}.

(** [Map<VectorXd>(v.vector, v.vlen)] *)
Definition Map_vec (v : SGVector) : Dense :=
  mkDense (vlen v) 1 (fun i _ => nth i v f0).

(** [Map<MatrixXd>(M.matrix, M.num_rows, M.num_cols)] *)
Definition Map_mat (M : SGMatrix) : Dense :=
  mkDense (num_rows M) (num_cols M)
          (fun i j => nth (j * num_rows M + i) (matrix M) f0).

(** Assignment of an expression to a mapped vector of [n] entries. *)
Definition assign_vec (n : nat) (e : Dense) : SGVector :=
  map (fun i => coeff e i 0) (seq 0 n).

(** Assignment of an expression to a mapped [r] x [c] matrix. *)
Definition assign_mat (r c : nat) (e : Dense) : SGMatrix :=
  mkSGMatrix r c
    (flat_map (fun j => map (fun i => coeff e i j) (seq 0 r)) (seq 0 c)).

Definition Ones (r c : nat) : Dense := mkDense r c (fun _ _ => f1).

Definition Identity (r c : nat) : Dense :=
  mkDense r c (fun i j => if Nat.eqb i j then f1 else f0).

Definition adjoint (a : Dense) : Dense :=
  mkDense (cols a) (rows a) (fun i j => coeff a j i).

Definition cwiseProduct (a b : Dense) : Dense :=
  mkDense (rows a) (cols a) (fun i j => (coeff a i j * coeff b i j)%f64).

Definition cwiseQuotient (a b : Dense) : Dense :=
  mkDense (rows a) (cols a) (fun i j => (coeff a i j / coeff b i j)%f64).

Definition dense_add (a b : Dense) : Dense :=
  mkDense (rows a) (cols a) (fun i j => (coeff a i j + coeff b i j)%f64).

Definition dense_sub (a b : Dense) : Dense :=
  mkDense (rows a) (cols a) (fun i j => (coeff a i j - coeff b i j)%f64).

(** [s * a] and [a * s] for a scalar [s] *)
Definition scalar_times (s : float64_t) (a : Dense) : Dense :=
  mkDense (rows a) (cols a) (fun i j => (s * coeff a i j)%f64).

Definition times_scalar (a : Dense) (s : float64_t) : Dense :=
  mkDense (rows a) (cols a) (fun i j => (coeff a i j * s)%f64).

(** matrix product [a * b] *)
Definition dense_mul (a b : Dense) : Dense :=
  mkDense (rows a) (cols b)
    (fun i j =>
       sum_list (map (fun k => (coeff a i k * coeff b k j)%f64) (seq 0 (cols a)))).

(** [a * d.asDiagonal()]: Eigen scales column [j] of [a] by [d(j)] *)
Definition times_diagonal (a d : Dense) : Dense :=
  mkDense (rows a) (rows d) (fun i j => (coeff a i j * coeff d j 0)%f64).

(** [a += d.asDiagonal()]: only the diagonal of [a] is touched *)
Definition add_assign_diagonal (a d : Dense) : Dense :=
  mkDense (rows a) (cols a)
    (fun i j => if Nat.eqb i j then (coeff a i j + coeff d i 0)%f64
                else coeff a i j).

(** [a.colwise().sum()]: a row vector *)
Definition colwise_sum (a : Dense) : Dense :=
  mkDense 1 (cols a)
    (fun _ j => sum_list (map (fun i => coeff a i j) (seq 0 (rows a)))).

(** [a.diagonal()] *)
Definition diagonal (a : Dense) : Dense :=
  mkDense (Nat.min (rows a) (cols a)) 1 (fun i _ => coeff a i i).

Definition array_log (a : Dense) : Dense :=
  mkDense (rows a) (cols a) (fun i j => flog (coeff a i j)).

Definition array_sqrt (a : Dense) : Dense :=
  mkDense (rows a) (cols a) (fun i j => fsqrt (coeff a i j)).

(** coefficients in storage (column-major) order *)
Definition coeffs (a : Dense) : list float64_t :=
  flat_map (fun j => map (fun i => coeff a i j) (seq 0 (rows a)))
           (seq 0 (cols a)).

(** [a.sum()] *)
Definition dense_sum (a : Dense) : float64_t := sum_list (coeffs a).

(** [a.dot(b)] for column vectors *)
Definition dot (a b : Dense) : float64_t :=
  sum_list (map (fun i => (coeff a i 0 * coeff b i 0)%f64) (seq 0 (rows a))).

(** ** Eigen's [LLT] and triangular solves

    Eigen is a library the translated file calls.  Its kernels are written
    out after Eigen's unblocked algorithms so that the model runs on
    concrete data; the general properties below do not depend on how they
    compute. *)

Definition upd (mat : nat -> nat -> float64_t) (i j : nat) (v : float64_t)
  : nat -> nat -> float64_t :=
  fun i' j' => if Nat.eqb i' i && Nat.eqb j' j then v else mat i' j'.

(** One column of the unblocked factorisation once the pivot [x] is known:
    [A21 -= A20 * A10.adjoint(); A21 /= x]. *)
Definition llt_column (size k : nat) (x : float64_t)
    (mat : nat -> nat -> float64_t) : nat -> nat -> float64_t :=
  fun i j =>
    if Nat.eqb j k && Nat.ltb k i && Nat.ltb i size then
      ((if Nat.ltb 0 k
        then mat i k -
             sum_list (map (fun c => mat i c * mat k c) (seq 0 k))
        else mat i k) / x)%f64
    else mat i j.

(** [llt_inplace<Lower>::unblocked]: returns the matrix as left by the loop
    and the index of the first non-positive pivot, if any. *)
Fixpoint llt_unblocked (steps k size : nat) (mat : nat -> nat -> float64_t)
  : (nat -> nat -> float64_t) * option nat :=
  match steps with
  | O => (mat, None)
  | S steps' =>
      let x := mat k k in
      let x := if Nat.ltb 0 k
               then (x - sum_list (map (fun c => mat k c * mat k c) (seq 0 k)))%f64
               else x in
      if fle x f0 then (mat, Some k)
      else
        let x := fsqrt x in
        llt_unblocked steps' (S k) size (llt_column size k x (upd mat k k x))
  end.

Record LLT : Type := mkLLT {
  llt_size : nat;
  llt_matrix : nat -> nat -> float64_t;
  (** [None] is [Success], [Some k] is [NumericalIssue] at pivot [k] *)
  llt_info : option nat
}.

(** [LLT<MatrixXd> L(a)] *)
Definition LLT_compute (a : Dense) : LLT :=
  let r := llt_unblocked (rows a) 0 (rows a) (coeff a) in
  mkLLT (rows a) (fst r) (snd r).

(** [L.matrixU()] assigned to a dense matrix: the strictly lower part is zero *)
Definition matrixU (L : LLT) : Dense :=
  mkDense (llt_size L) (llt_size L)
    (fun i j => if Nat.leb i j then llt_matrix L j i else f0).

(** Forward substitution with the lower triangle [lo] (row-oriented). *)
Fixpoint forward_subst (lo : nat -> nat -> float64_t) (b : nat -> float64_t)
    (steps : nat) (xs : list float64_t) : list float64_t :=
  match steps with
  | O => xs
  | S steps' =>
      let i := List.length xs in
      let s := if Nat.ltb 0 i
               then (b i -
                     sum_list (map (fun c => lo i c * nth c xs f0) (seq 0 i)))%f64
               else b i in
      forward_subst lo b steps' (xs ++ [(s / lo i i)%f64])
  end.

(** Back substitution with the upper triangle [up] (column-oriented): the
    entries already solved are subtracted from the highest index down. *)
Fixpoint backward_subst (up : nat -> nat -> float64_t) (b : nat -> float64_t)
    (n steps : nat) (xs : list float64_t) : list float64_t :=
  match steps with
  | O => xs
  | S i =>
      let s := fold_left
                 (fun acc c => (acc - nth (c - S i) xs f0 * up i c)%f64)
                 (rev (seq (S i) (n - S i))) (b i) in
      backward_subst up b n i ((s / up i i)%f64 :: xs)
  end.

(** [u.triangularView<Upper>().solve(b)] *)
Definition solve_upper (u b : Dense) : Dense :=
  mkDense (rows u) (cols b)
    (fun i j =>
       nth i (backward_subst (coeff u) (fun r => coeff b r j)
                             (rows u) (rows u) []) f0).

(** [u.triangularView<Upper>().adjoint().solve(b)] *)
Definition solve_upper_adjoint (u b : Dense) : Dense :=
  mkDense (cols u) (cols b)
    (fun i j =>
       nth i (forward_subst (fun r c => coeff u c r) (fun r => coeff b r j)
                            (cols u) []) f0).

(** [L.solve(b)]: both triangular solves with the stored factor *)
Definition LLT_solve (L : LLT) (b : Dense) : Dense :=
  solve_upper (matrixU L) (solve_upper_adjoint (matrixU L) b).

End Arithmetic.

(** ** Collaborators and engine state *)

(** The enumerations are declared in headers outside the translated file;
    only the enumerators the file tests are named. *)
Inductive ELikelihoodModelType : Type :=
  | LT_GAUSSIAN
  | LT_OTHER_MODEL (tag : nat).

Inductive ELabelType : Type :=
  | LT_REGRESSION
  | LT_OTHER_LABEL (tag : nat).

Inductive EInferenceType : Type :=
  | INF_FITC_REGRESSION
  | INF_OTHER (tag : nat).

Definition model_type_eqb (a b : ELikelihoodModelType) : bool :=
  match a, b with
  | LT_GAUSSIAN, LT_GAUSSIAN => true
  | LT_OTHER_MODEL x, LT_OTHER_MODEL y => Nat.eqb x y
  | _, _ => false
  end.

Definition label_type_eqb (a b : ELabelType) : bool :=
  match a, b with
  | LT_REGRESSION, LT_REGRESSION => true
  | LT_OTHER_LABEL x, LT_OTHER_LABEL y => Nat.eqb x y
  | _, _ => false
  end.

Definition inference_type_eqb (a b : EInferenceType) : bool :=
  match a, b with
  | INF_FITC_REGRESSION, INF_FITC_REGRESSION => true
  | INF_OTHER x, INF_OTHER y => Nat.eqb x y
  | _, _ => false
  end.

(** What the observer of the providers sees: trace and warning messages of
    the file itself, and one event per call into a collaborator. *)
Inductive event : Type :=
  | SG_TRACE (msg : string)
  | io_warn (msg : string)
  | call_kernel
  | call_get_sigma
  | call_get_labels
  | call_get_mean_vector.

(** A call returns a value or throws a [ShogunException] with its message. *)
Inductive Outcome (A : Type) : Type :=
  | Ok (a : A)
  | Throw (msg : string).
Arguments Throw {A} msg.

Section Engine.
Context {FA : Float64}.

(** Hyperparameters held by the engine and the answers of its collaborators
    (likelihood, labels, mean function, features, covariance provider) for
    the current hyperparameters. *)
Record Hyper : Type := mkHyper {
  m_log_scale : float64_t;
  m_log_ind_noise : float64_t;
  model_type : ELikelihoodModelType;
  model_name : string;
  sigma : float64_t;
  label_type : ELabelType;
  labels : SGVector;
  mean_vector : SGVector;
  num_vectors : nat;
  kernel_uu : SGMatrix;
  kernel_tru : SGMatrix;
  kernel_diag : SGVector
}.

(** The opaque hash over the hyperparameters ([SGObject]). *)
Class Hashing : Type := {
  hash_t : Type;
  hash_eq_dec : forall x y : hash_t, {x = y} + {x <> y};
  parameter_hash : Hyper -> hash_t
}.

Context {HA : Hashing}.

(** written by [update_train_kernel] *)
Record Kernels : Type := mkKernels {
  m_kuu : SGMatrix;
  m_ktru : SGMatrix;
  m_ktrtr_diag : SGVector
}.

(** written by [update_chol] *)
Record Factors : Type := mkFactors {
  m_chol_uu : SGMatrix;
  m_V : SGMatrix;
  m_t : SGVector;
  m_chol_utr : SGMatrix;
  m_r : SGVector;
  m_be : SGVector;
  m_L : SGMatrix
}.

(** written by [update_deriv] *)
Record Derivs : Type := mkDerivs {
  m_al : SGVector;
  m_B : SGMatrix;
  m_w : SGVector;
  m_Rvdd : SGMatrix
}.

Record FITCInferenceMethod : Type := mkFITC {
  hyper : Hyper;
  m_hash : hash_t;
  m_gradient_update : bool;
  kernels : Kernels;
  factors : Factors;
  m_alpha : SGVector;
  derivs : Derivs;
  m_mu : SGVector;
  m_Sigma : SGMatrix;
  (** events observed so far, oldest first *)
  events : list event
}.

Definition with_hyper (h : Hyper) (s : FITCInferenceMethod) :=
  mkFITC h (m_hash s) (m_gradient_update s) (kernels s) (factors s)
         (m_alpha s) (derivs s) (m_mu s) (m_Sigma s) (events s).
Definition with_hash (h : hash_t) (s : FITCInferenceMethod) :=
  mkFITC (hyper s) h (m_gradient_update s) (kernels s) (factors s)
         (m_alpha s) (derivs s) (m_mu s) (m_Sigma s) (events s).
Definition with_gradient_update (b : bool) (s : FITCInferenceMethod) :=
  mkFITC (hyper s) (m_hash s) b (kernels s) (factors s)
         (m_alpha s) (derivs s) (m_mu s) (m_Sigma s) (events s).
Definition with_kernels (k : Kernels) (s : FITCInferenceMethod) :=
  mkFITC (hyper s) (m_hash s) (m_gradient_update s) k (factors s)
         (m_alpha s) (derivs s) (m_mu s) (m_Sigma s) (events s).
Definition with_factors (f : Factors) (s : FITCInferenceMethod) :=
  mkFITC (hyper s) (m_hash s) (m_gradient_update s) (kernels s) f
         (m_alpha s) (derivs s) (m_mu s) (m_Sigma s) (events s).
Definition with_alpha (a : SGVector) (s : FITCInferenceMethod) :=
  mkFITC (hyper s) (m_hash s) (m_gradient_update s) (kernels s) (factors s)
         a (derivs s) (m_mu s) (m_Sigma s) (events s).
Definition with_derivs (d : Derivs) (s : FITCInferenceMethod) :=
  mkFITC (hyper s) (m_hash s) (m_gradient_update s) (kernels s) (factors s)
         (m_alpha s) d (m_mu s) (m_Sigma s) (events s).
Definition with_mu (v : SGVector) (s : FITCInferenceMethod) :=
  mkFITC (hyper s) (m_hash s) (m_gradient_update s) (kernels s) (factors s)
         (m_alpha s) (derivs s) v (m_Sigma s) (events s).
Definition with_Sigma (M : SGMatrix) (s : FITCInferenceMethod) :=
  mkFITC (hyper s) (m_hash s) (m_gradient_update s) (kernels s) (factors s)
         (m_alpha s) (derivs s) (m_mu s) M (events s).
Definition with_events (l : list event) (s : FITCInferenceMethod) :=
  mkFITC (hyper s) (m_hash s) (m_gradient_update s) (kernels s) (factors s)
         (m_alpha s) (derivs s) (m_mu s) (m_Sigma s) l.

(** ** The monad of the methods: engine state, exceptions *)

Definition Run (A : Type) : Type :=
  FITCInferenceMethod -> Outcome (A * FITCInferenceMethod).

Definition ret {A} (a : A) : Run A := fun s => Ok (a, s).

Definition bind {A B} (m : Run A) (k : A -> Run B) : Run B :=
  fun s => match m s with
           | Ok (a, s') => k a s'
           | Throw msg => Throw msg
           end.

Definition get : Run FITCInferenceMethod := fun s => Ok (s, s).
Definition modify (f : FITCInferenceMethod -> FITCInferenceMethod) : Run unit :=
  fun s => Ok (tt, f s).
Definition throw {A} (msg : string) : Run A := fun _ => Throw msg.

Definition emit (e : event) : Run unit :=
  modify (fun s => with_events (events s ++ [e]) s).

End Engine.

Notation "x <- m ;; k" := (bind m (fun x => k))
  (at level 61, m at next level, right associativity).
Notation "m ;;; k" := (bind m (fun _ => k))
  (at level 61, right associativity).

(** ** The methods of [FITCInferenceMethod] *)

Section Methods.
Context {FA : Float64} {HA : Hashing}.
Local Open Scope string_scope.

(** *** Collaborators outside the translated file *)

(** Modelled from the spec: shogun's [require(cond, msg)] and [error(msg)],
    absent from the file, fail immediately with a descriptive error; they
    throw the formatted message. *)
Definition require (cond : bool) (msg : string) : Run unit :=
  if cond then ret tt else throw msg.

Definition error {A} (msg : string) : Run A := throw msg.

(** Modelled from the spec: the checked down-cast [as<GaussianLikelihood>()]
    of [m_model], absent from the file, fails with an error naming the
    expected and the actual type when the model is not Gaussian; [get_sigma]
    answers the noise scale of the likelihood provider. *)
Definition get_sigma : Run float64_t :=
  s <- get ;;
  if model_type_eqb (model_type (hyper s)) LT_GAUSSIAN
  then emit call_get_sigma ;;; ret (sigma (hyper s))
  else error ("Object of type " ++ model_name (hyper s)
              ++ " cannot be converted to type GaussianLikelihood")%string.

(** [regression_labels(m_labels)->get_labels()] *)
Definition get_labels : Run SGVector :=
  emit call_get_labels ;;; s <- get ;; ret (labels (hyper s)).

(** [m_mean->get_mean_vector(m_features)] *)
Definition get_mean_vector : Run SGVector :=
  emit call_get_mean_vector ;;; s <- get ;; ret (mean_vector (hyper s)).

(** Modelled from the spec: [parameter_hash_changed()], absent from the
    file, compares the hash of the current hyperparameters with the one
    recorded last. *)
Definition parameter_hash_changed (s : FITCInferenceMethod) : bool :=
  if hash_eq_dec (parameter_hash (hyper s)) (m_hash s) then false else true.

(** Modelled from the spec: [update_parameter_hash()], absent from the file,
    records the hash of the current hyperparameters. *)
Definition update_parameter_hash : Run unit :=
  modify (fun s => with_hash (parameter_hash (hyper s)) s).

(** Modelled from the spec: [update_train_kernel()], absent from the file,
    re-evaluates Kuu, Ktru and the diagonal of Ktrtr through the covariance
    provider on every [update()]. *)
Definition update_train_kernel : Run unit :=
  emit call_kernel ;;;
  modify (fun s =>
    with_kernels (mkKernels (kernel_uu (hyper s)) (kernel_tru (hyper s))
                            (kernel_diag (hyper s))) s).

(** Modelled from the spec: [SingleFITCInference::check_members()], absent
    from the file; the precondition it adds is a non-empty inducing set. *)
Definition SingleFITCInference_check_members : Run unit :=
  s <- get ;;
  require (Nat.ltb 0 (num_rows (kernel_uu (hyper s))))
          "Inducing features must not be empty".

(** *** [check_members] (lines 100-108) *)
Definition check_members : Run unit :=
  SingleFITCInference_check_members ;;;
  s <- get ;;
  require (model_type_eqb (model_type (hyper s)) LT_GAUSSIAN)
    "FITC inference method can only use Gaussian likelihood function" ;;;
  require (label_type_eqb (label_type (hyper s)) LT_REGRESSION)
    "Labels must be type of RegressionLabels".

(** Modelled from the spec: [Inference::update()], absent from the file,
    checks the preconditions and refreshes the covariance blocks. *)
Definition Inference_update : Run unit :=
  check_members ;;; update_train_kernel.

(** *** [update_chol] (lines 151-248) *)

(** [exp(m_log_scale * 2.0)] *)
Definition scale_sq (h : Hyper) : float64_t := fexp (m_log_scale h * f2)%f64.

Definition chol_Luu (h : Hyper) (k : Kernels) : LLT :=
  LLT_compute
    (dense_add
       (times_scalar (Map_mat (m_kuu k)) (scale_sq h))
       (scalar_times (fexp (m_log_ind_noise h))
          (Identity (num_rows (m_kuu k)) (num_cols (m_kuu k))))).

Definition chol_uu_of (h : Hyper) (k : Kernels) : SGMatrix :=
  let Luu := chol_Luu h k in
  assign_mat (llt_size Luu) (llt_size Luu) (matrixU Luu).

Definition V_of (h : Hyper) (k : Kernels) : SGMatrix :=
  let chol_uu := chol_uu_of h k in
  assign_mat (num_cols chol_uu) (num_cols (m_ktru k))
    (solve_upper_adjoint (Map_mat chol_uu)
       (times_scalar (Map_mat (m_ktru k)) (scale_sq h))).

(** the vector before inversion (lines 195-197):
    [g_sn2 = diagK + sn2 - sum(V.*V,1)'] *)
Definition g_sn2_of (sig : float64_t) (h : Hyper) (k : Kernels) : SGVector :=
  let V := Map_mat (V_of h k) in
  let n := vlen (m_ktrtr_diag k) in
  assign_vec n
    (dense_sub
       (dense_add (times_scalar (Map_vec (m_ktrtr_diag k)) (scale_sq h))
                  (scalar_times (Math_sq sig) (Ones n 1)))
       (adjoint (colwise_sum (cwiseProduct V V)))).

(** line 198: the element-wise reciprocal, taken unconditionally *)
Definition t_of (sig : float64_t) (h : Hyper) (k : Kernels) : SGVector :=
  let eigen_t := Map_vec (g_sn2_of sig h k) in
  assign_vec (vlen (m_ktrtr_diag k))
             (cwiseQuotient (Ones (rows eigen_t) 1) eigen_t).

Definition chol_utr_of (sig : float64_t) (h : Hyper) (k : Kernels) : SGMatrix :=
  let V := Map_mat (V_of h k) in
  let eigen_t := Map_vec (t_of sig h k) in
  let n := vlen (t_of sig h k) in
  let Lu :=
    LLT_compute
      (dense_add
         (dense_mul (times_diagonal V (cwiseProduct (Ones n 1) eigen_t))
                    (adjoint V))
         (Identity (num_rows (m_kuu k)) (num_cols (m_kuu k)))) in
  assign_mat (llt_size Lu) (llt_size Lu) (matrixU Lu).

Definition factors_of (sig : float64_t) (h : Hyper) (k : Kernels)
    (y m : SGVector) : Factors :=
  let Luu := chol_Luu h k in
  let m_chol_uu' := chol_uu_of h k in
  let eigen_chol_uu := Map_mat m_chol_uu' in
  let m_V' := V_of h k in
  let V := Map_mat m_V' in
  let m_t' := t_of sig h k in
  let eigen_t := Map_vec m_t' in
  let m_chol_utr' := chol_utr_of sig h k in
  let eigen_chol_utr := Map_mat m_chol_utr' in
  let eigen_y := Map_vec y in
  let eigen_m := Map_vec m in
  let sqrt_t := array_sqrt eigen_t in
  let m_r' :=
    assign_vec (vlen y) (cwiseProduct (dense_sub eigen_y eigen_m) sqrt_t) in
  let eigen_r := Map_vec m_r' in
  let m_be' :=
    assign_vec (num_cols m_chol_utr')
      (solve_upper_adjoint eigen_chol_utr
         (dense_mul V (cwiseProduct eigen_r sqrt_t))) in
  let id := Identity (num_rows (m_kuu k)) (num_cols (m_kuu k)) in
  let iKuu := LLT_solve Luu id in
  let eigen_prod := dense_mul eigen_chol_utr eigen_chol_uu in
  let L1 :=
    assign_mat (num_rows (m_kuu k)) (num_cols (m_kuu k))
               (solve_upper_adjoint eigen_prod id) in
  let m_L' :=
    assign_mat (num_rows (m_kuu k)) (num_cols (m_kuu k))
               (dense_sub (solve_upper eigen_prod (Map_mat L1)) iKuu) in
  mkFactors m_chol_uu' m_V' m_t' m_chol_utr' m_r' m_be' m_L'.

Definition update_chol : Run unit :=
  sig <- get_sigma ;;
  y <- get_labels ;;
  m <- get_mean_vector ;;
  modify (fun s => with_factors (factors_of sig (hyper s) (kernels s) y m) s).

(** *** [update_alpha] (lines 250-267) *)
Definition alpha_of (f : Factors) : SGVector :=
  let n := num_rows (m_chol_uu f) in
  let a1 :=
    assign_vec n (solve_upper (Map_mat (m_chol_utr f)) (Map_vec (m_be f))) in
  assign_vec n (solve_upper (Map_mat (m_chol_uu f)) (Map_vec a1)).

Definition update_alpha : Run unit :=
  modify (fun s => with_alpha (alpha_of (factors s)) s).

(** *** [update_deriv] (lines 269-329) *)
Definition derivs_of (h : Hyper) (k : Kernels) (f : Factors)
    (y m : SGVector) : Derivs :=
  let eigen_Ktru := Map_mat (m_ktru k) in
  let eigen_Lu := Map_mat (m_chol_utr f) in
  let eigen_Luu := Map_mat (m_chol_uu f) in
  let eigen_t := Map_vec (m_t f) in
  let eigen_be := Map_vec (m_be f) in
  let V := Map_mat (m_V f) in
  let m_al' :=
    assign_vec (vlen m)
      (cwiseProduct
         (dense_sub (dense_sub (Map_vec y) (Map_vec m))
                    (dense_mul (adjoint V) (solve_upper eigen_Lu eigen_be)))
         eigen_t) in
  let iKuu :=
    solve_upper eigen_Luu
      (solve_upper_adjoint eigen_Luu
         (Identity (num_rows (m_kuu k)) (num_cols (m_kuu k)))) in
  let m_B' :=
    assign_mat (rows iKuu) (cols eigen_Ktru)
               (times_scalar (dense_mul iKuu eigen_Ktru) (scale_sq h)) in
  let m_w' :=
    assign_vec (num_rows m_B') (dense_mul (Map_mat m_B') (Map_vec m_al')) in
  let m_Rvdd' :=
    assign_mat (num_cols (m_chol_utr f)) (vlen (m_t f))
      (solve_upper_adjoint eigen_Lu
         (times_diagonal V (cwiseProduct (Ones (vlen (m_t f)) 1) eigen_t))) in
  mkDerivs m_al' m_B' m_w' m_Rvdd'.

Definition update_deriv : Run unit :=
  y <- get_labels ;;
  m <- get_mean_vector ;;
  modify (fun s =>
    with_derivs (derivs_of (hyper s) (kernels s) (factors s) y m) s).

(** *** [update] (lines 75-86) *)
Definition update : Run unit :=
  emit (SG_TRACE "entering") ;;;
  Inference_update ;;;
  update_chol ;;;
  update_alpha ;;;
  modify (with_gradient_update false) ;;;
  update_parameter_hash ;;;
  emit (SG_TRACE "leaving").

(** Modelled from the spec: [Inference::compute_gradient()], absent from the
    file, is the staleness guard of the gradient paths: it triggers
    [update()] when the hyperparameter hash has changed. *)
Definition Inference_compute_gradient : Run unit :=
  s <- get ;;
  if parameter_hash_changed s then update else ret tt.

(** *** [compute_gradient] (lines 63-73) *)
Definition compute_gradient : Run unit :=
  Inference_compute_gradient ;;;
  s <- get ;;
  if negb (m_gradient_update s) then
    update_deriv ;;;
    modify (with_gradient_update true) ;;;
    update_parameter_hash
  else ret tt.

(** *** [get_diagonal_vector] (lines 110-124) *)
Definition get_diagonal_vector : Run SGVector :=
  s <- get ;;
  (if parameter_hash_changed s then update else ret tt) ;;;
  sig <- get_sigma ;;
  s <- get ;;
  ret (repeat (f1 / sig)%f64 (num_vectors (hyper s))).

(** *** [get_negative_log_marginal_likelihood] (lines 126-149) *)
Definition nlml_of (k : Kernels) (f : Factors) : float64_t :=
  let eigen_chol_utr := Map_mat (m_chol_utr f) in
  let eigen_t := Map_vec (m_t f) in
  let eigen_r := Map_vec (m_r f) in
  let eigen_be := Map_vec (m_be f) in
  (dense_sum (array_log (diagonal eigen_chol_utr)) +
   (- dense_sum (array_log eigen_t) + dot eigen_r eigen_r -
    dot eigen_be eigen_be +
    of_int (Z.of_nat (vlen (m_ktrtr_diag k))) * flog (f2 * Math_PI)) / f2)%f64.

Definition get_negative_log_marginal_likelihood : Run float64_t :=
  s <- get ;;
  (if parameter_hash_changed s then update else ret tt) ;;;
  s <- get ;;
  ret (nlml_of (kernels s) (factors s)).

(** *** [get_posterior_mean] (lines 332-360) *)
Definition posterior_mean_of (s : FITCInferenceMethod) : SGVector :=
  let eigen_alpha := Map_vec (m_alpha s) in
  let eigen_Ktru := Map_mat (m_ktru (kernels s)) in
  assign_vec (vlen (m_al (derivs s)))
    (dense_mul (scalar_times (scale_sq (hyper s)) (adjoint eigen_Ktru))
               eigen_alpha).

Definition get_posterior_mean : Run SGVector :=
  compute_gradient ;;;
  s <- get ;;
  let mu := posterior_mean_of s in
  modify (with_mu mu) ;;;
  ret mu.

(** *** [get_posterior_covariance] (lines 362-402) *)
Definition posterior_part1 (k : Kernels) (f : Factors) : Dense :=
  dense_mul (adjoint (Map_mat (m_V f)))
    (solve_upper (Map_mat (m_chol_utr f))
                 (Identity (num_rows (m_kuu k)) (num_cols (m_kuu k)))).

Definition posterior_part2 (h : Hyper) (k : Kernels) (f : Factors) : Dense :=
  let eigen_V := Map_mat (m_V f) in
  dense_sub (times_scalar (Map_vec (m_ktrtr_diag k)) (scale_sq h))
            (adjoint (colwise_sum (cwiseProduct eigen_V eigen_V))).

Definition posterior_covariance_of (s : FITCInferenceMethod) : SGMatrix :=
  let n := vlen (m_ktrtr_diag (kernels s)) in
  let part1 := posterior_part1 (kernels s) (factors s) in
  let Sigma0 := assign_mat n n (dense_mul part1 (adjoint part1)) in
  let part2 := posterior_part2 (hyper s) (kernels s) (factors s) in
  assign_mat n n (add_assign_diagonal (Map_mat Sigma0) part2).

Definition get_posterior_covariance : Run SGMatrix :=
  compute_gradient ;;;
  s <- get ;;
  let Sigma := posterior_covariance_of s in
  modify (with_Sigma Sigma) ;;;
  ret Sigma.

(** *** [get_derivative_wrt_likelihood_model] (lines 404-431) *)
Definition dnlZ_lik (sig : float64_t) (f : Factors) (d : Derivs)
  : float64_t :=
  let eigen_t := Map_vec (m_t f) in
  let eigen_al := Map_vec (m_al d) in
  let eigen_W := Map_mat (m_Rvdd d) in
  (Math_sq sig *
   (dense_sum (cwiseProduct (Ones (vlen (m_t f)) 1) eigen_t) -
    dense_sum (cwiseProduct eigen_W eigen_W) -
    dot eigen_al eigen_al))%f64.

Definition unsupported_parameter (model param : string) : string :=
  "Can't compute derivative of the nagative log marginal likelihood wrt "
  ++ model ++ "." ++ param ++ " parameter".

(** [param] is [param.first], the name of the parameter. *)
Definition get_derivative_wrt_likelihood_model (param : string)
  : Run SGVector :=
  s <- get ;;
  require (String.eqb param "log_sigma")
          (unsupported_parameter (model_name (hyper s)) param) ;;;
  sig <- get_sigma ;;
  s <- get ;;
  ret [dnlZ_lik sig (factors s) (derivs s)].

(** Modelled from the spec: the caller path of the gradient accessors,
    absent from the file, runs [compute_gradient()] first and only then
    asks for the derivative with respect to the likelihood parameter. *)
Definition gradient_wrt_likelihood_model (param : string) : Run SGVector :=
  compute_gradient ;;; get_derivative_wrt_likelihood_model param.

(** *** [register_minimizer] (lines 433-436) *)
Definition register_minimizer : Run unit :=
  emit (io_warn "The method does not require a minimizer. The provided minimizer will not be used.").

(** *** [obtain_from_generic] (lines 88-98) *)

(** A generic inference object behind a [shared_ptr<Inference>]: its
    inference type and, when its dynamic class is [FITCInferenceMethod],
    the engine itself. *)
Record Inference : Type := mkInference {
  get_inference_type : EInferenceType;
  dynamic_FITC : option FITCInferenceMethod
}.

(** Modelled from the spec: the checked down-cast [as<FITCInferenceMethod>()],
    absent from the file, fails with a clear error on mismatch. *)
Definition as_FITCInferenceMethod (inf : Inference)
  : Outcome FITCInferenceMethod :=
  match dynamic_FITC inf with
  | Some x => Ok x
  | None => Throw "Object cannot be converted to type FITCInferenceMethod"
  end.

(** [None] is the null handle, as argument and as result. *)
Definition obtain_from_generic (inference : option Inference)
  : Outcome (option FITCInferenceMethod) :=
  match inference with
  | None => Ok None
  | Some inf =>
      if negb (inference_type_eqb (get_inference_type inf) INF_FITC_REGRESSION)
      then Throw "Provided inference is not of type FITCInferenceMethod!"
      else match as_FITCInferenceMethod inf with
           | Ok x => Ok (Some x)
           | Throw msg => Throw msg
           end
  end.

End Methods.

(** ** The real-number instance

    Exact arithmetic: the operations of [float64_t] read over the reals. *)

Definition Rleb (x y : R) : bool := if Rle_dec x y then true else false.
Definition Rltb (x y : R) : bool := if Rlt_dec x y then true else false.

#[export] Instance Float64_R : Float64 := {|
  float64_t := R;
  of_int := IZR;
  fadd := Rplus;
  fsub := Rminus;
  fmul := Rmult;
  fdiv := Rdiv;
  fneg := Ropp;
  fsqrt := sqrt;
  fexp := exp;
  flog := ln;
  Math_PI := PI;
  fle := Rleb;
  flt := Rltb;
  fmul_comm := Rmult_comm;
  fmul_1_l := Rmult_1_l
|}.

(** A collision-free hash: the three scalar hyperparameters themselves. *)
Definition scalar_hyper (h : @Hyper Float64_R) : R * R * R :=
  (m_log_scale h, m_log_ind_noise h, sigma h).

Definition scalar_hyper_eq_dec (x y : R * R * R) : {x = y} + {x <> y}.
Proof.
  destruct x as [[a b] c], y as [[a' b'] c'].
  destruct (Req_dec_T a a') as [Ha | Ha];
    [destruct (Req_dec_T b b') as [Hb | Hb];
       [destruct (Req_dec_T c c') as [Hc | Hc] | ] | ].
  - left; congruence.
  - right; congruence.
  - right; congruence.
  - right; congruence.
Defined.

#[export] Instance Hashing_R : @Hashing Float64_R := {|
  hash_t := R * R * R;
  hash_eq_dec := scalar_hyper_eq_dec;
  parameter_hash := scalar_hyper
|}.

(** *** One training point, one inducing point *)

Definition one_by_one (x : R) : @SGMatrix Float64_R := mkSGMatrix 1 1 [x].

(** Kuu = 0, Ktru = [ktru], Ktrtr_diag = 1, unit scale and jitter
    ([log_scale = log_ind_noise = 0]), noise [sig], target 1, prior mean 0. *)
Definition hyper_1x1 (ktru sig : R) : @Hyper Float64_R :=
  mkHyper 0%R 0%R LT_GAUSSIAN "GaussianLikelihood" sig LT_REGRESSION
          [1%R] [0%R] 1 (one_by_one 0) (one_by_one ktru) [1%R].

(** the covariance blocks [update_train_kernel] caches for [hyper_1x1] *)
Definition kernels_1x1 (ktru : R) : @Kernels Float64_R :=
  mkKernels (one_by_one 0) (one_by_one ktru) [1%R].

(** An engine on which nothing has been computed yet. *)
Definition fresh_engine (h : @Hyper Float64_R) (recorded : R * R * R)
  : FITCInferenceMethod :=
  mkFITC h recorded false
         (mkKernels (mkSGMatrix 0 0 []) (mkSGMatrix 0 0 []) [])
         (mkFactors (mkSGMatrix 0 0 []) (mkSGMatrix 0 0 []) []
                    (mkSGMatrix 0 0 []) [] [] (mkSGMatrix 0 0 []))
         []
         (mkDerivs [] (mkSGMatrix 0 0 []) [] (mkSGMatrix 0 0 []))
         [] (mkSGMatrix 0 0 []) [].

(** a new engine for [hyper_1x1], recorded hash not yet that of its
    hyperparameters *)
Definition engine_1x1 (ktru sig : R) : FITCInferenceMethod :=
  fresh_engine (hyper_1x1 ktru sig) (0%R, 0%R, 0%R).

(** *** Two training points, one inducing point *)

Definition hyper_2x1 : @Hyper Float64_R :=
  mkHyper 0%R 0%R LT_GAUSSIAN "GaussianLikelihood" 1%R LT_REGRESSION
          [1%R; 2%R] [0%R; 0%R] 2 (one_by_one 1)
          (mkSGMatrix 1 2 [(1 / 2)%R; (1 / 4)%R]) [1%R; 1%R].

Definition engine_2x1 : FITCInferenceMethod :=
  fresh_engine hyper_2x1 (0%R, 0%R, 0%R).

(** ** Formulas of the specification and derived characterisations *)

Section Formulas.
Context {FA : Float64} {HA : Hashing}.

(** entry [(i,j)] of a stored matrix *)
Definition entry (M : SGMatrix) (i j : nat) : float64_t :=
  nth (j * num_rows M + i) (matrix M) f0.

(** [diag(M)] *)
Definition diag_of (M : SGMatrix) : list float64_t :=
  map (fun i => entry M i i) (seq 0 (Nat.min (num_rows M) (num_cols M))).

(** [sum(log(v))] and [v'v] *)
Definition sum_log (v : list float64_t) : float64_t := sum_list (map flog v).
Definition sum_sq (v : list float64_t) : float64_t :=
  sum_list (map (fun x => (x * x)%f64) v).

(** [sum(log(diag(Lu))) + (-sum(log(t)) + r'r - be'be + n*log(2*pi)) / 2] *)
Definition nlml_formula (Lu : SGMatrix) (t r be : SGVector) (n : nat)
  : float64_t :=
  (sum_log (diag_of Lu) +
   (- sum_log t + sum_sq r - sum_sq be +
    of_int (Z.of_nat n) * flog (of_int 2 * Math_PI)) / of_int 2)%f64.

Definition nlml_formula_of (s : FITCInferenceMethod) : float64_t :=
  nlml_formula (m_chol_utr (factors s)) (m_t (factors s)) (m_r (factors s))
               (m_be (factors s)) (vlen (m_ktrtr_diag (kernels s))).

(** [sigma^2 * (sum(t) - sum(Rvdd.*Rvdd) - al.al)] *)
Definition dnlZ_lik_formula (sig : float64_t) (t : SGVector) (Rvdd : SGMatrix)
    (al : SGVector) : float64_t :=
  (sig * sig *
   (sum_list t
    - sum_list (flat_map
                  (fun j => map (fun i => entry Rvdd i j * entry Rvdd i j)
                                (seq 0 (num_rows Rvdd)))
                  (seq 0 (num_cols Rvdd)))
    - sum_sq al))%f64.

(** [exp(2*log_scale) * Ktru' * alpha], an [n]-vector *)
Definition posterior_mean_formula (log_scale : float64_t) (Ktru : SGMatrix)
    (alpha : SGVector) (n : nat) : SGVector :=
  map (fun i =>
         sum_list
           (map (fun k => (fexp (of_int 2 * log_scale) * entry Ktru k i
                           * nth k alpha f0)%f64)
                (seq 0 (num_rows Ktru))))
      (seq 0 n).

Definition posterior_mean_formula_of (s : FITCInferenceMethod) : SGVector :=
  posterior_mean_formula (m_log_scale (hyper s)) (m_ktru (kernels s))
                         (m_alpha s) (vlen (m_al (derivs s))).

(** The alternate formula the source keeps in a comment (lines 339-351),
    the posterior mean under the equivalent FITC prior:
    [(y - m) - al * sigma^2]. *)
Definition exact_posterior_mean_formula (y m al : SGVector)
    (sig : float64_t) : SGVector :=
  map (fun i => (nth i y f0 - nth i m f0 - nth i al f0 * (sig * sig))%f64)
      (seq 0 (vlen al)).

(** The first failing precondition of [check_members], if any. *)
Definition check_failure (h : Hyper) : option string :=
  if negb (Nat.ltb 0 (num_rows (kernel_uu h)))
  then Some "Inducing features must not be empty"%string
  else if negb (model_type_eqb (model_type h) LT_GAUSSIAN)
  then Some "FITC inference method can only use Gaussian likelihood function"%string
  else if negb (label_type_eqb (label_type h) LT_REGRESSION)
  then Some "Labels must be type of RegressionLabels"%string
  else None.

(** The engine left by an [update()] whose preconditions hold. *)
Definition after_update (s : FITCInferenceMethod) : FITCInferenceMethod :=
  let h := hyper s in
  let k := mkKernels (kernel_uu h) (kernel_tru h) (kernel_diag h) in
  let f := factors_of (sigma h) h k (labels h) (mean_vector h) in
  mkFITC h (parameter_hash h) false k f (alpha_of f) (derivs s) (m_mu s)
         (m_Sigma s)
         (events s ++ [SG_TRACE "entering"; call_kernel; call_get_sigma;
                       call_get_labels; call_get_mean_vector;
                       SG_TRACE "leaving"]).

(** The engine left by the recomputation inside [compute_gradient()]. *)
Definition after_deriv (s : FITCInferenceMethod) : FITCInferenceMethod :=
  let h := hyper s in
  mkFITC h (parameter_hash h) true (kernels s) (factors s) (m_alpha s)
         (derivs_of h (kernels s) (factors s) (labels h) (mean_vector h))
         (m_mu s) (m_Sigma s)
         (events s ++ [call_get_labels; call_get_mean_vector]).

(** The gradient-stale flag of the specification: set by every [update()]
    and by every change of the hyperparameter hash, cleared by
    [compute_gradient()]. *)
Definition gradient_dirty (s : FITCInferenceMethod) : bool :=
  parameter_hash_changed s || negb (m_gradient_update s).

(** An accessor routes through [compute_gradient()]: running
    [compute_gradient()] just before it changes nothing of what it does. *)
Definition routes_through_compute_gradient {A} (acc : Run A) : Prop :=
  forall s : FITCInferenceMethod, acc s = (compute_gradient ;;; acc) s.

(** The value of a call, its final engine state forgotten. *)
Definition value_of {A} (o : Outcome (A * FITCInferenceMethod)) : Outcome A :=
  match o with
  | Ok (a, _) => Ok a
  | Throw msg => Throw msg
  end.

(** [msg] names [name]: the name occurs in the message. *)
Definition names (msg name : string) : Prop :=
  exists pre post : string, msg = (pre ++ name ++ post)%string.

End Formulas.

(** The scenario behind the stale derivative state: a first
    [compute_gradient()] with noise 1, after which the user sets the noise
    of the likelihood to 2. *)
Definition current_engine : FITCInferenceMethod :=
  after_deriv (after_update (engine_1x1 0 1)).

Definition stale_engine : FITCInferenceMethod :=
  with_hyper (hyper_1x1 0 2) current_engine.

(** The two-point engine after a [compute_gradient()]: hash current,
    derivative quantities up to date. *)
Definition computed_engine_2x1 : FITCInferenceMethod :=
  after_deriv (after_update engine_2x1).

(** The same engine with other derivative quantities in its cache. *)
Definition other_derivs_engine_2x1 : FITCInferenceMethod :=
  with_derivs (mkDerivs [7%R; 7%R] (one_by_one 7) [7%R] (one_by_one 7))
              computed_engine_2x1.

(** *** Variants of the two-point scenario *)

(** other targets and another prior mean *)
Definition hyper_2x1_other_targets : @Hyper Float64_R :=
  mkHyper 0%R 0%R LT_GAUSSIAN "GaussianLikelihood" 1%R LT_REGRESSION
          [3%R; 5%R] [1%R; 1%R] 2 (one_by_one 1)
          (mkSGMatrix 1 2 [(1 / 2)%R; (1 / 4)%R]) [1%R; 1%R].

(** An engine that shares [V], [Lu], [Ktrtr_diag] and the scale with
    [computed_engine_2x1] and differs from it in the targets, the prior
    mean, [chol_uu], [t], [r], [be], [L], [alpha] and the derivative
    quantities. *)
Definition other_cache_engine_2x1 : FITCInferenceMethod :=
  mkFITC hyper_2x1_other_targets (parameter_hash hyper_2x1_other_targets) true
         (kernels computed_engine_2x1)
         (mkFactors (one_by_one 7) (m_V (factors computed_engine_2x1)) [7%R]
                    (m_chol_utr (factors computed_engine_2x1))
                    [7%R] [7%R] (one_by_one 7))
         [7%R]
         (mkDerivs [7%R; 7%R] (one_by_one 7) [7%R] (one_by_one 7))
         [] (mkSGMatrix 0 0 []) [].

(** a likelihood that is not Gaussian *)
Definition hyper_2x1_other_model : @Hyper Float64_R :=
  mkHyper 0%R 0%R (LT_OTHER_MODEL 0) "StudentsTLikelihood" 1%R LT_REGRESSION
          [1%R; 2%R] [0%R; 0%R] 2 (one_by_one 1)
          (mkSGMatrix 1 2 [(1 / 2)%R; (1 / 4)%R]) [1%R; 1%R].

(** labels that are not regression labels *)
Definition hyper_2x1_other_labels : @Hyper Float64_R :=
  mkHyper 0%R 0%R LT_GAUSSIAN "GaussianLikelihood" 1%R (LT_OTHER_LABEL 0)
          [1%R; 2%R] [0%R; 0%R] 2 (one_by_one 1)
          (mkSGMatrix 1 2 [(1 / 2)%R; (1 / 4)%R]) [1%R; 1%R].

(** ** Notions for the properties of the remaining methods *)

Definition event_eq_dec (a b : event) : {a = b} + {a <> b}.
Proof. decide equality; apply string_dec. Defined.

(** how often an event occurs in a log *)
Definition count_event (e : event) (l : list event) : nat :=
  count_occ event_eq_dec l e.

Section Shapes.
Context {FA : Float64} {HA : Hashing}.

(** [M] is an [r] x [c] matrix whose buffer holds [r * c] entries *)
Definition has_shape (M : SGMatrix) (r c : nat) : Prop :=
  num_rows M = r /\ num_cols M = c /\ List.length (matrix M) = r * c.


(** two engines equal but for their event logs *)
Definition same_engine (a b : FITCInferenceMethod) : Prop :=
  with_events [] a = with_events [] b.

(** two settings that agree on everything but the targets, the prior mean,
    the name of the model and the number of feature vectors *)
Definition same_covariance_inputs (h1 h2 : Hyper) : Prop :=
  m_log_scale h1 = m_log_scale h2 /\
  m_log_ind_noise h1 = m_log_ind_noise h2 /\
  sigma h1 = sigma h2 /\
  model_type h1 = model_type h2 /\
  label_type h1 = label_type h2 /\
  kernel_uu h1 = kernel_uu h2 /\
  kernel_tru h1 = kernel_tru h2 /\
  kernel_diag h1 = kernel_diag h2.

End Shapes.

(** ** Formulas of the specification for the factorisation and the
    posterior covariance, over stored matrices and plain lists *)

Section CovarianceFormulas.
Context {FA : Float64} {HA : Hashing}.

(** [colSums(V.*V)], entry [i] *)
Definition colsum_sq (V : SGMatrix) (i : nat) : float64_t :=
  sum_list (map (fun l => (entry V l i * entry V l i)%f64)
                (seq 0 (num_rows V))).

(** [Ktrtr_diag*exp(2*log_scale) + sigma^2 - colSums(V.*V)], entry [i]:
    the vector whose reciprocal is [t] *)
Definition residual_variance_formula (kdiag : SGVector)
    (log_scale sig : float64_t) (V : SGMatrix) (i : nat) : float64_t :=
  (nth i kdiag f0 * fexp (of_int 2 * log_scale) + sig * sig
   - colsum_sq V i)%f64.

(** column [k] of the identity *)
Definition identity_column (k : nat) : nat -> float64_t :=
  fun r => if Nat.eqb r k then of_int 1 else of_int 0.

(** [Lu^-1] solved against the identity, entry [(l,k)]: the upper triangle
    of [Lu] back-substituted against column [k] of the identity *)
Definition Lu_inverse_entry (Lu : SGMatrix) (l k : nat) : float64_t :=
  nth l (backward_subst (entry Lu) (identity_column k)
                        (num_rows Lu) (num_rows Lu) [])
      f0.

(** [part1 = V' * (Lu^-1 solved against I)], entry [(i,k)] *)
Definition covariance_part1_formula (V Lu : SGMatrix) (i k : nat)
  : float64_t :=
  sum_list (map (fun l => (entry V l i * Lu_inverse_entry Lu l k)%f64)
                (seq 0 (num_rows V))).

(** [Ktrtr_diag*exp(2*log_scale) - colSums(V.*V)], entry [i] *)
Definition covariance_part2_formula (kdiag : SGVector)
    (log_scale : float64_t) (V : SGMatrix) (i : nat) : float64_t :=
  (nth i kdiag f0 * fexp (of_int 2 * log_scale) - colsum_sq V i)%f64.

(** [part1*part1' + diag(part2)], entry [(i,j)]; [c] is the number of
    columns of the identity, the number of inducing points *)
Definition posterior_covariance_entry (V Lu : SGMatrix) (kdiag : SGVector)
    (log_scale : float64_t) (c i j : nat) : float64_t :=
  let gram :=
    sum_list (map (fun k => (covariance_part1_formula V Lu i k
                             * covariance_part1_formula V Lu j k)%f64)
                  (seq 0 c)) in
  if Nat.eqb i j
  then (gram + covariance_part2_formula kdiag log_scale V i)%f64
  else gram.

(** the [n] x [n] matrix of these entries, [n] the length of [kdiag] *)
Definition posterior_covariance_formula (V Lu : SGMatrix) (kdiag : SGVector)
    (log_scale : float64_t) (c : nat) : SGMatrix :=
  let n := vlen kdiag in
  mkSGMatrix n n
    (flat_map
       (fun j => map (fun i => posterior_covariance_entry V Lu kdiag
                                 log_scale c i j)
                     (seq 0 n))
       (seq 0 n)).

(** the engine caches as many inducing columns for Kuu as for [Lu], as
    [update()] leaves them when Kuu is square *)
Definition inducing_count_consistent (s : FITCInferenceMethod) : Prop :=
  num_cols (m_kuu (kernels s)) = num_cols (m_chol_utr (factors s)).

End CovarianceFormulas.

(** ** Properties *)

Section Properties.
Context {FA : Float64} {HA : Hashing}.

Lemma hash_recorded_unchanged (s : FITCInferenceMethod) :
  m_hash s = parameter_hash (hyper s) -> parameter_hash_changed s = false.
Proof.
  intros H. unfold parameter_hash_changed.
  destruct (hash_eq_dec (parameter_hash (hyper s)) (m_hash s)); congruence.
Qed.

Lemma check_members_run (s : FITCInferenceMethod) :
  check_members s =
  match check_failure (hyper s) with
  | None => Ok (tt, s)
  | Some msg => Throw msg
  end.
Proof.
  unfold check_members, SingleFITCInference_check_members, check_failure,
    require, bind, get, ret, throw.
  destruct (Nat.ltb 0 (num_rows (kernel_uu (hyper s)))); simpl; trivial.
  destruct (model_type_eqb (model_type (hyper s)) LT_GAUSSIAN); simpl; trivial.
  destruct (label_type_eqb (label_type (hyper s)) LT_REGRESSION); simpl; trivial.
Qed.

Lemma check_failure_gaussian (h : Hyper) :
  check_failure h = None -> model_type_eqb (model_type h) LT_GAUSSIAN = true.
Proof.
  unfold check_failure.
  destruct (Nat.ltb 0 (num_rows (kernel_uu h))); simpl; try discriminate.
  destruct (model_type_eqb (model_type h) LT_GAUSSIAN); simpl; trivial.
  discriminate.
Qed.

Lemma update_run (s : FITCInferenceMethod) :
  update s =
  match check_failure (hyper s) with
  | None => Ok (tt, after_update s)
  | Some msg => Throw msg
  end.
Proof.
  unfold update, Inference_update.
  unfold bind at 1. unfold emit at 1, modify at 1.
  unfold bind at 1. unfold bind at 1.
  rewrite check_members_run. cbn [hyper with_events].
  destruct (check_failure (hyper s)) eqn:E; trivial.
  apply check_failure_gaussian in E.
  unfold update_train_kernel, update_chol, update_alpha, update_parameter_hash,
    get_sigma, get_labels, get_mean_vector, emit, modify, bind, get, ret.
  cbn. rewrite E. cbn.
  unfold after_update. repeat rewrite <- app_assoc. reflexivity.
Qed.

Lemma update_deriv_run (s : FITCInferenceMethod) :
  (update_deriv ;;; modify (with_gradient_update true) ;;;
   update_parameter_hash) s = Ok (tt, after_deriv s).
Proof.
  unfold update_deriv, update_parameter_hash, get_labels, get_mean_vector,
    emit, modify, bind, get, ret.
  cbn. unfold after_deriv. rewrite <- app_assoc. reflexivity.
Qed.

Lemma Inference_compute_gradient_run (s : FITCInferenceMethod) :
  Inference_compute_gradient s =
  if parameter_hash_changed s then update s else Ok (tt, s).
Proof.
  unfold Inference_compute_gradient, bind, get, ret.
  destruct (parameter_hash_changed s); reflexivity.
Qed.

Lemma compute_gradient_run (s : FITCInferenceMethod) :
  compute_gradient s =
  match Inference_compute_gradient s with
  | Ok (_, s1) =>
      if m_gradient_update s1 then Ok (tt, s1) else Ok (tt, after_deriv s1)
  | Throw msg => Throw msg
  end.
Proof.
  unfold compute_gradient. unfold bind at 1.
  destruct (Inference_compute_gradient s) as [[[] s1] | msg]; trivial.
  unfold bind at 1, get at 1.
  destruct (m_gradient_update s1); cbn [negb]; trivial.
  apply update_deriv_run.
Qed.

(** [update()] records the hash it ran with and raises the gradient flag. *)
Lemma update_inv (s0 s : FITCInferenceMethod) :
  update s0 = Ok (tt, s) ->
  s = after_update s0 /\ check_failure (hyper s0) = None.
Proof.
  rewrite update_run. destruct (check_failure (hyper s0)); [discriminate|].
  intros H. inversion H. auto.
Qed.

Lemma after_update_unchanged (s : FITCInferenceMethod) :
  parameter_hash_changed (after_update s) = false.
Proof. apply hash_recorded_unchanged. reflexivity. Qed.

Lemma after_deriv_unchanged (s : FITCInferenceMethod) :
  parameter_hash_changed (after_deriv s) = false.
Proof. apply hash_recorded_unchanged. reflexivity. Qed.

(** *** Buffers and expressions *)

Lemma map_nth_seq {A B} (g : A -> B) (d : A) (v : list A) :
  map (fun i => g (nth i v d)) (seq 0 (List.length v)) = map g v.
Proof.
  induction v as [| x v IH]; trivial.
  cbn [List.length seq map nth]. f_equal.
  rewrite <- seq_shift, map_map. exact IH.
Qed.

Lemma length_assign_vec (n : nat) (e : Dense) : vlen (assign_vec n e) = n.
Proof. unfold vlen, assign_vec. now rewrite length_map, length_seq. Qed.

Lemma nth_assign_vec (n : nat) (e : Dense) (i : nat) :
  i < n -> nth i (assign_vec n e) f0 = coeff e i 0.
Proof.
  intros H. unfold assign_vec.
  rewrite nth_indep with (d' := coeff e 0 0)
    by now rewrite length_map, length_seq.
  change (coeff e 0 0) with ((fun i => coeff e i 0) 0).
  rewrite map_nth, seq_nth; trivial.
Qed.

(** a column-major buffer read back at [(i,j)] *)
Lemma nth_column_major (g : nat -> nat -> float64_t) (r c i j : nat) :
  i < r -> j < c ->
  nth (j * r + i)
      (flat_map (fun j => map (fun i => g i j) (seq 0 r)) (seq 0 c)) f0
  = g i j.
Proof.
  intros Hi. revert j.
  assert (G : forall n b j, j < n ->
    nth (j * r + i)
        (flat_map (fun j => map (fun i => g i j) (seq 0 r)) (seq b n)) f0
    = g i (b + j)).
  { clear c. intros n. induction n as [| n IH]; intros b j Hj; [lia|].
    cbn [seq flat_map]. destruct j as [| j].
    - cbn [Nat.mul Nat.add]. rewrite app_nth1 by now rewrite length_map, length_seq.
      rewrite nth_indep with (d' := g 0 b) by now rewrite length_map, length_seq.
      change (g 0 b) with ((fun i => g i b) 0).
      rewrite map_nth, seq_nth by trivial. now rewrite Nat.add_0_r.
    - rewrite app_nth2 by (rewrite length_map, length_seq; cbn; lia).
      rewrite length_map, length_seq.
      replace (S j * r + i - r) with (j * r + i) by (cbn; lia).
      rewrite IH by lia. f_equal. lia. }
  intros j Hj. now rewrite G.
Qed.

Lemma coeff_Map_assign_mat (r c : nat) (e : Dense) (i j : nat) :
  i < r -> j < c -> coeff (Map_mat (assign_mat r c e)) i j = coeff e i j.
Proof.
  intros Hi Hj. cbn [Map_mat assign_mat coeff num_rows matrix].
  now apply (nth_column_major (coeff e)).
Qed.

Lemma dense_sum_column (e : Dense) :
  cols e = 1 ->
  dense_sum e = sum_list (map (fun i => coeff e i 0) (seq 0 (rows e))).
Proof.
  intros H. unfold dense_sum, coeffs. rewrite H. cbn [seq flat_map].
  now rewrite app_nil_r.
Qed.

Lemma sum_sq_dot (v : SGVector) : dot (Map_vec v) (Map_vec v) = sum_sq v.
Proof.
  unfold dot, sum_sq. cbn [Map_vec rows coeff]. unfold vlen.
  now rewrite (map_nth_seq (fun x => (x * x)%f64)).
Qed.

Lemma scale_sq_formula (h : Hyper) :
  scale_sq h = fexp (of_int 2 * m_log_scale h)%f64.
Proof. unfold scale_sq, f2. now rewrite fmul_comm. Qed.

Lemma fmul_1_r (x : float64_t) : (x * f1)%f64 = x.
Proof. unfold f1. rewrite fmul_comm. apply fmul_1_l. Qed.

Lemma colsum_sq_coeff (V : SGMatrix) (i : nat) :
  coeff (adjoint (colwise_sum (cwiseProduct (Map_mat V) (Map_mat V)))) i 0
  = colsum_sq V i.
Proof. reflexivity. Qed.

(** *** C1: the negative log marginal likelihood *)

Lemma nlml_of_formula (s : FITCInferenceMethod) :
  nlml_of (kernels s) (factors s) = nlml_formula_of s.
Proof.
  unfold nlml_of, nlml_formula_of, nlml_formula.
  rewrite !sum_sq_dot. rewrite !dense_sum_column by reflexivity.
  unfold sum_log, diag_of, entry, f2.
  cbn [array_log diagonal Map_mat Map_vec rows cols coeff]. unfold vlen.
  rewrite (map_nth_seq flog). rewrite (map_map _ flog). reflexivity.
Qed.

Lemma get_nlml_run (s : FITCInferenceMethod) :
  get_negative_log_marginal_likelihood s =
  ((if parameter_hash_changed s then update else ret tt) ;;;
   (fun s' => Ok (nlml_formula_of s', s'))) s.
Proof.
  unfold get_negative_log_marginal_likelihood, bind, get.
  destruct ((if parameter_hash_changed s then update else ret tt) s)
    as [[[] s'] | msg]; trivial.
  unfold ret. now rewrite nlml_of_formula.
Qed.

Lemma get_nlml_unchanged (s : FITCInferenceMethod) :
  parameter_hash_changed s = false ->
  get_negative_log_marginal_likelihood s = Ok (nlml_formula_of s, s).
Proof. intros H. rewrite get_nlml_run. unfold bind. now rewrite H. Qed.

(** C1. [get_negative_log_marginal_likelihood()] triggers [update()] exactly
    when the hyperparameter hash has changed and then returns
    [sum(log(diag(Lu))) + (-sum(log(t)) + r'r - be'be + n*log(2*pi)) / 2]
    over the cached [Lu], [t], [r], [be], with [n] the length of the cached
    training diagonal; on every engine state produced by [update()] it
    returns that formula over the state as [update()] left it. *)
Theorem nlml_returns_formula :
  (forall s : FITCInferenceMethod,
     get_negative_log_marginal_likelihood s =
     ((if parameter_hash_changed s then update else ret tt) ;;;
      (fun s' => Ok (nlml_formula_of s', s'))) s) /\
  (forall s0 s : FITCInferenceMethod,
     update s0 = Ok (tt, s) ->
     get_negative_log_marginal_likelihood s = Ok (nlml_formula_of s, s)).
Proof.
  split; [exact get_nlml_run|].
  intros s0 s H. apply update_inv in H. destruct H as [-> _].
  apply get_nlml_unchanged, after_update_unchanged.
Qed.

(** *** C7: the second call reads the cache *)

(** C7. After a call of [get_negative_log_marginal_likelihood()] that
    returned, a second call with the hyperparameters untouched returns the
    same value and leaves the engine, its event log included, exactly as it
    was: no [update()] (which would log its trace and query the providers)
    and no [compute_gradient()] is triggered.  [compute_gradient()] itself
    changes nothing whenever the gradient-stale flag is clear. *)
Theorem nlml_second_call_reads_cache :
  (forall (s s1 : FITCInferenceMethod) (v : float64_t),
     get_negative_log_marginal_likelihood s = Ok (v, s1) ->
     parameter_hash_changed s1 = false /\
     get_negative_log_marginal_likelihood s1 = Ok (v, s1)) /\
  (forall s : FITCInferenceMethod,
     gradient_dirty s = false -> compute_gradient s = Ok (tt, s)).
Proof.
  split.
  - intros s s1 v. rewrite get_nlml_run. unfold bind.
    destruct (parameter_hash_changed s) eqn:E.
    + rewrite update_run. destruct (check_failure (hyper s)); [discriminate|].
      intros H. inversion H. subst.
      split; [apply after_update_unchanged|].
      apply get_nlml_unchanged, after_update_unchanged.
    + unfold ret. intros H. inversion H. subst s1.
      split; [exact E|]. now apply get_nlml_unchanged.
  - intros s H. unfold gradient_dirty in H.
    apply orb_false_iff in H. destruct H as [Hh Hg].
    apply negb_false_iff in Hg.
    rewrite compute_gradient_run, Inference_compute_gradient_run, Hh.
    now rewrite Hg.
Qed.

(** *** C3, C4: the derivative with respect to the likelihood model *)

Lemma get_sigma_gaussian (s : FITCInferenceMethod) :
  model_type (hyper s) = LT_GAUSSIAN ->
  get_sigma s = Ok (sigma (hyper s), with_events (events s ++ [call_get_sigma]) s).
Proof.
  intros H. unfold get_sigma, bind, get, emit, modify, ret. now rewrite H.
Qed.

Lemma sum_ones_times (t : SGVector) :
  dense_sum (cwiseProduct (Ones (vlen t) 1) (Map_vec t)) = sum_list t.
Proof.
  rewrite dense_sum_column by reflexivity.
  cbn [cwiseProduct Ones Map_vec rows coeff]. unfold vlen, f1.
  rewrite (map_nth_seq (fun x => (of_int 1 * x)%f64)).
  f_equal. rewrite <- (map_id t) at 2. apply map_ext, fmul_1_l.
Qed.

Lemma dnlZ_lik_is_formula (sig : float64_t) (f : Factors) (d : Derivs) :
  dnlZ_lik sig f d = dnlZ_lik_formula sig (m_t f) (m_Rvdd d) (m_al d).
Proof.
  unfold dnlZ_lik, dnlZ_lik_formula. now rewrite sum_ones_times, sum_sq_dot.
Qed.

Lemma get_derivative_log_sigma_run (s : FITCInferenceMethod) :
  get_derivative_wrt_likelihood_model "log_sigma" s =
  (sig <- get_sigma ;;
   ret [dnlZ_lik_formula sig (m_t (factors s)) (m_Rvdd (derivs s))
                         (m_al (derivs s))]) s.
Proof.
  unfold get_derivative_wrt_likelihood_model.
  unfold bind at 1, get at 1. unfold bind at 1.
  cbn [String.eqb Ascii.eqb Bool.eqb require ret].
  unfold get_sigma, emit, modify, get, ret, error, throw, bind.
  destruct (model_type_eqb (model_type (hyper s)) LT_GAUSSIAN); trivial.
  cbn [factors derivs with_events]. now rewrite dnlZ_lik_is_formula.
Qed.

(** C3. Called with the name "log_sigma" on an engine whose likelihood is
    Gaussian, [get_derivative_wrt_likelihood_model] returns the one-entry
    vector [sigma^2 * (sum(t) - sum(Rvdd.*Rvdd) - al.al)], with [sigma] read
    from the likelihood provider and [t], [Rvdd], [al] the cached
    quantities; the engine is left as it was but for the provider call. *)
Theorem derivative_wrt_log_sigma (s : FITCInferenceMethod) :
  model_type (hyper s) = LT_GAUSSIAN ->
  get_derivative_wrt_likelihood_model "log_sigma" s =
  Ok ([dnlZ_lik_formula (sigma (hyper s)) (m_t (factors s))
                        (m_Rvdd (derivs s)) (m_al (derivs s))],
      with_events (events s ++ [call_get_sigma]) s).
Proof.
  intros H. rewrite get_derivative_log_sigma_run. unfold bind.
  now rewrite (get_sigma_gaussian s H).
Qed.

Lemma string_app_assoc (a b c : string) :
  ((a ++ b) ++ c = a ++ (b ++ c))%string.
Proof. induction a as [| x a IH]; cbn; [trivial | now rewrite IH]. Qed.

Lemma unsupported_parameter_names (model param : string) :
  names (unsupported_parameter model param) param.
Proof.
  exists ("Can't compute derivative of the nagative log marginal likelihood wrt "
          ++ model ++ ".")%string, " parameter"%string.
  unfold unsupported_parameter. now rewrite !string_app_assoc.
Qed.

(** C4. For every parameter name other than "log_sigma",
    [get_derivative_wrt_likelihood_model] throws, and the message of the
    exception names the offending parameter. *)
Theorem derivative_wrt_unsupported (param : string) (s : FITCInferenceMethod) :
  param <> "log_sigma"%string ->
  exists msg : string,
    get_derivative_wrt_likelihood_model param s = Throw msg /\
    msg = unsupported_parameter (model_name (hyper s)) param /\
    names msg param.
Proof.
  intros H. exists (unsupported_parameter (model_name (hyper s)) param).
  split; [|split; [reflexivity | apply unsupported_parameter_names]].
  unfold get_derivative_wrt_likelihood_model, bind, get, require, throw.
  apply String.eqb_neq in H. now rewrite H.
Qed.

(** *** C5: the posterior mean *)

Lemma posterior_mean_of_formula (s : FITCInferenceMethod) :
  posterior_mean_of s = posterior_mean_formula_of s.
Proof.
  unfold posterior_mean_of, posterior_mean_formula_of, posterior_mean_formula,
    assign_vec, scale_sq, entry, f2.
  cbn [dense_mul scalar_times adjoint Map_mat Map_vec rows cols coeff].
  now rewrite (fmul_comm (m_log_scale (hyper s)) (of_int 2)).
Qed.

Lemma compute_gradient_recomputes (s : FITCInferenceMethod) :
  parameter_hash_changed s = true -> check_failure (hyper s) = None ->
  compute_gradient s = Ok (tt, after_deriv (after_update s)).
Proof.
  intros Hh Hc.
  now rewrite compute_gradient_run, Inference_compute_gradient_run, Hh,
    update_run, Hc.
Qed.

(** what [compute_gradient()] leaves when it returns *)
Lemma compute_gradient_inv (s s' : FITCInferenceMethod) :
  compute_gradient s = Ok (tt, s') ->
  gradient_dirty s' = false /\
  (gradient_dirty s = false -> s' = s) /\
  (gradient_dirty s = true ->
   exists s1, s' = after_deriv s1 /\ hyper s1 = hyper s /\
              (s1 = s \/ s1 = after_update s)).
Proof.
  rewrite compute_gradient_run, Inference_compute_gradient_run.
  unfold gradient_dirty.
  destruct (parameter_hash_changed s) eqn:Hh.
  - rewrite update_run. destruct (check_failure (hyper s)); [discriminate|].
    cbn [after_update m_gradient_update]. intros H. inversion H. subst s'.
    rewrite after_deriv_unchanged. cbn. repeat split; try discriminate.
    intros _. exists (after_update s). auto.
  - destruct (m_gradient_update s) eqn:Hg; intros H; inversion H; subst s'.
    + rewrite Hh, Hg. cbn. repeat split; trivial. discriminate.
    + rewrite after_deriv_unchanged. cbn. repeat split; try discriminate.
      intros _. exists s. auto.
Qed.

(** C5. [get_posterior_mean()] first runs [compute_gradient()] and then
    returns (and stores in [m_mu]) the vector
    [exp(2*log_scale) * Ktru' * alpha] over the cached [Ktru] and [alpha];
    its length is that of the cached [al], which is the number of training
    points whenever [compute_gradient()] had to recompute.  The result is
    this FITC formula on every engine state: no other formula is used. *)
Theorem posterior_mean_is_fitc :
  (forall s : FITCInferenceMethod,
     get_posterior_mean s =
     (compute_gradient ;;;
      (fun s' => Ok (posterior_mean_formula_of s',
                     with_mu (posterior_mean_formula_of s') s'))) s) /\
  (forall (s s' : FITCInferenceMethod) (mu : SGVector),
     get_posterior_mean s = Ok (mu, s') ->
     vlen mu = vlen (m_al (derivs s')) /\
     (gradient_dirty s = true -> vlen mu = vlen (mean_vector (hyper s)))).
Proof.
  assert (G : forall s : FITCInferenceMethod,
     get_posterior_mean s =
     (compute_gradient ;;;
      (fun s' => Ok (posterior_mean_formula_of s',
                     with_mu (posterior_mean_formula_of s') s'))) s).
  { intros s. unfold get_posterior_mean, bind, get, modify, ret.
    destruct (compute_gradient s) as [[[] s'] | msg]; trivial.
    now rewrite posterior_mean_of_formula. }
  split; [exact G|].
  intros s s' mu. rewrite G. unfold bind.
  destruct (compute_gradient s) as [[[] s1] | msg] eqn:E; [|discriminate].
  intros H. inversion H. subst. cbn [with_mu derivs].
  assert (L : vlen (posterior_mean_formula_of s1) = vlen (m_al (derivs s1))).
  { unfold posterior_mean_formula_of, posterior_mean_formula, vlen.
    now rewrite length_map, length_seq. }
  split; [exact L|]. rewrite L.
  intros Hd. apply compute_gradient_inv in E.
  destruct E as (_ & _ & E). destruct (E Hd) as (s2 & -> & Hh & _).
  cbn [after_deriv derivs derivs_of m_al]. now rewrite length_assign_vec, Hh.
Qed.

(** *** C6, C10: the posterior covariance *)

Lemma get_posterior_covariance_run (s : FITCInferenceMethod) :
  get_posterior_covariance s =
  (compute_gradient ;;;
   (fun s' => Ok (posterior_covariance_of s',
                  with_Sigma (posterior_covariance_of s') s'))) s.
Proof.
  unfold get_posterior_covariance, bind, get, modify, ret.
  now destruct (compute_gradient s) as [[[] s'] | msg].
Qed.

Lemma entry_posterior_covariance (s : FITCInferenceMethod) (i j : nat) :
  i < vlen (m_ktrtr_diag (kernels s)) ->
  j < vlen (m_ktrtr_diag (kernels s)) ->
  entry (posterior_covariance_of s) i j =
  if Nat.eqb i j
  then (coeff (dense_mul (posterior_part1 (kernels s) (factors s))
                         (adjoint (posterior_part1 (kernels s) (factors s))))
              i j
        + coeff (posterior_part2 (hyper s) (kernels s) (factors s)) i 0)%f64
  else coeff (dense_mul (posterior_part1 (kernels s) (factors s))
                        (adjoint (posterior_part1 (kernels s) (factors s))))
             i j.
Proof.
  intros Hi Hj. unfold posterior_covariance_of.
  change (entry ?M i j) with (coeff (Map_mat M) i j).
  rewrite coeff_Map_assign_mat by trivial.
  cbn [add_assign_diagonal coeff].
  now rewrite coeff_Map_assign_mat by trivial.
Qed.

Lemma gram_symmetric (p : Dense) (i j : nat) :
  coeff (dense_mul p (adjoint p)) i j = coeff (dense_mul p (adjoint p)) j i.
Proof.
  cbn [dense_mul adjoint coeff cols]. f_equal.
  apply map_ext. intros c. apply fmul_comm.
Qed.

Lemma column_major_ext (f g : nat -> nat -> float64_t) (r c : nat) :
  (forall i j, i < r -> j < c -> f i j = g i j) ->
  flat_map (fun j => map (fun i => f i j) (seq 0 r)) (seq 0 c)
  = flat_map (fun j => map (fun i => g i j) (seq 0 r)) (seq 0 c).
Proof.
  intros H.
  assert (G : forall l : list nat, (forall j, In j l -> j < c) ->
            flat_map (fun j => map (fun i => f i j) (seq 0 r)) l
            = flat_map (fun j => map (fun i => g i j) (seq 0 r)) l).
  { induction l as [| j l IH]; intros Hl; trivial.
    cbn [flat_map]. rewrite IH by (intros x Hx; apply Hl; now right).
    f_equal. apply map_ext_in. intros i Hi. apply in_seq in Hi.
    apply H; [lia|]. apply Hl. now left. }
  apply G. intros j Hj. apply in_seq in Hj. lia.
Qed.

Lemma part1_is_formula (k : Kernels) (f : Factors) (i c : nat) :
  coeff (posterior_part1 k f) i c
  = covariance_part1_formula (m_V f) (m_chol_utr f) i c.
Proof. reflexivity. Qed.

Lemma part2_is_formula (h : Hyper) (k : Kernels) (f : Factors) (i : nat) :
  coeff (posterior_part2 h k f) i 0
  = covariance_part2_formula (m_ktrtr_diag k) (m_log_scale h) (m_V f) i.
Proof.
  unfold posterior_part2, covariance_part2_formula.
  cbn [dense_sub times_scalar Map_vec coeff].
  now rewrite colsum_sq_coeff, scale_sq_formula.
Qed.

Lemma gram_is_formula (k : Kernels) (f : Factors) (i j : nat) :
  coeff (dense_mul (posterior_part1 k f) (adjoint (posterior_part1 k f))) i j
  = sum_list (map (fun c => (covariance_part1_formula (m_V f) (m_chol_utr f) i c
                             * covariance_part1_formula (m_V f) (m_chol_utr f)
                                                        j c)%f64)
                  (seq 0 (num_cols (m_kuu k)))).
Proof. reflexivity. Qed.

(** the matrix of lines 368-399 is the formula of the specification *)
Lemma posterior_covariance_of_formula (s : FITCInferenceMethod) :
  posterior_covariance_of s
  = posterior_covariance_formula
      (m_V (factors s)) (m_chol_utr (factors s)) (m_ktrtr_diag (kernels s))
      (m_log_scale (hyper s)) (num_cols (m_kuu (kernels s))).
Proof.
  unfold posterior_covariance_of, posterior_covariance_formula.
  unfold assign_mat at 1. f_equal.
  apply column_major_ext. intros i j Hi Hj.
  cbn [add_assign_diagonal coeff].
  rewrite coeff_Map_assign_mat by trivial.
  unfold posterior_covariance_entry.
  now rewrite gram_is_formula, part2_is_formula.
Qed.

Lemma entry_covariance_formula (V Lu : SGMatrix) (kdiag : SGVector)
    (ls : float64_t) (c i j : nat) :
  i < vlen kdiag -> j < vlen kdiag ->
  entry (posterior_covariance_formula V Lu kdiag ls c) i j
  = posterior_covariance_entry V Lu kdiag ls c i j.
Proof.
  intros Hi Hj. unfold entry, posterior_covariance_formula.
  cbn [num_rows matrix].
  now apply (nth_column_major
               (fun i j => posterior_covariance_entry V Lu kdiag ls c i j)).
Qed.

(** C6. The matrix returned by [get_posterior_covariance()] is [n] x [n]
    for [n] the length of the cached training diagonal; its entry [(i,j)]
    is that of [part1*part1'], plus entry [i] of
    [Ktrtr_diag*exp(2*log_scale) - colSums(V.*V)] when [i = j], where
    [part1 = V' * (Lu^-1 solved against the identity)]; hence its entry
    [(i,j)] equals its entry [(j,i)]. *)
Theorem posterior_covariance_symmetric
    (s s' : FITCInferenceMethod) (S : SGMatrix) :
  get_posterior_covariance s = Ok (S, s') ->
  let n := vlen (m_ktrtr_diag (kernels s')) in
  num_rows S = n /\ num_cols S = n /\
  (forall i j, i < n -> j < n ->
     entry S i j =
     posterior_covariance_entry
       (m_V (factors s')) (m_chol_utr (factors s'))
       (m_ktrtr_diag (kernels s')) (m_log_scale (hyper s'))
       (num_cols (m_kuu (kernels s'))) i j) /\
  (forall i j, i < n -> j < n -> entry S i j = entry S j i).
Proof.
  rewrite get_posterior_covariance_run. unfold bind.
  destruct (compute_gradient s) as [[[] s1] | msg]; [|discriminate].
  intros H. inversion H. subst S s'. clear H.
  cbn [with_Sigma kernels factors hyper].
  split; [reflexivity|]. split; [reflexivity|].
  split.
  - intros i j Hi Hj. rewrite posterior_covariance_of_formula.
    now apply entry_covariance_formula.
  - intros i j Hi Hj.
    rewrite !entry_posterior_covariance by trivial.
    rewrite (Nat.eqb_sym j i).
    destruct (Nat.eqb i j) eqn:E.
    + apply Nat.eqb_eq in E. now subst j.
    + apply gram_symmetric.
Qed.

(** [compute_gradient()] neither reads nor writes anything the covariance
    depends on, apart from what [update()] recomputes from the
    hyperparameters. *)
Lemma compute_gradient_core (s1 s2 : FITCInferenceMethod) :
  hyper s1 = hyper s2 -> m_hash s1 = m_hash s2 ->
  kernels s1 = kernels s2 -> factors s1 = factors s2 ->
  match compute_gradient s1, compute_gradient s2 with
  | Ok (_, a), Ok (_, b) =>
      hyper a = hyper b /\ kernels a = kernels b /\ factors a = factors b
  | Throw m1, Throw m2 => m1 = m2
  | _, _ => False
  end.
Proof.
  intros Hh Hm Hk Hf.
  rewrite !compute_gradient_run, !Inference_compute_gradient_run.
  assert (E : parameter_hash_changed s1 = parameter_hash_changed s2)
    by (unfold parameter_hash_changed; now rewrite Hh, Hm).
  rewrite <- E. destruct (parameter_hash_changed s1).
  - rewrite !update_run, <- Hh.
    destruct (check_failure (hyper s1)); trivial.
    cbn [after_update m_gradient_update after_deriv hyper kernels factors].
    now rewrite <- Hh.
  - destruct (m_gradient_update s1), (m_gradient_update s2);
      cbn [after_deriv hyper kernels factors]; auto.
Qed.

(** on an engine whose hash is current and whose derivative quantities are
    up to date, the call writes [m_Sigma] and nothing else *)
Lemma get_posterior_covariance_current (s : FITCInferenceMethod) :
  gradient_dirty s = false ->
  get_posterior_covariance s
  = Ok (posterior_covariance_of s, with_Sigma (posterior_covariance_of s) s).
Proof.
  intros H. unfold gradient_dirty in H. apply orb_false_iff in H.
  destruct H as [Hh Hg]. apply negb_false_iff in Hg.
  rewrite get_posterior_covariance_run. unfold bind.
  now rewrite compute_gradient_run, Inference_compute_gradient_run, Hh, Hg.
Qed.

(** with a current hash [compute_gradient()] leaves the settings, the
    covariance blocks and the factorisation as they are *)
Lemma compute_gradient_keeps_core (s : FITCInferenceMethod) :
  parameter_hash_changed s = false ->
  exists s', compute_gradient s = Ok (tt, s') /\
             hyper s' = hyper s /\ kernels s' = kernels s /\
             factors s' = factors s.
Proof.
  intros H. rewrite compute_gradient_run, Inference_compute_gradient_run, H.
  destruct (m_gradient_update s); eexists; split; try reflexivity;
    repeat split.
Qed.

(** C10. The matrix [get_posterior_covariance()] returns is the formula
    [part1*part1' + diag(Ktrtr_diag*exp(2*log_scale) - colSums(V.*V))],
    [part1 = V' * (Lu^-1 solved against I)], over the cached [V], [Lu],
    [Ktrtr_diag], the scale and the number of columns of the identity
    (that of Kuu, which is that of [Lu] after an [update()]), and over
    nothing else.  Hence two engines whose hash is current and which agree
    on [V], [Lu], [Ktrtr_diag] and [log_scale] return the same matrix,
    whatever their [al], [B], [w], [Rvdd], gradient flags, [t], [r], [be],
    [alpha], noise, targets and logs are; so do two engines that agree on
    the settings, the recorded hash and the state [update()] produces,
    even when [update()] is triggered.  [update()] leaves as many inducing
    columns for Kuu as for [Lu] when Kuu is square. *)
Theorem posterior_covariance_ignores_derivs :
  (forall (s s' : FITCInferenceMethod) (S : SGMatrix),
     get_posterior_covariance s = Ok (S, s') ->
     S = posterior_covariance_formula
           (m_V (factors s')) (m_chol_utr (factors s'))
           (m_ktrtr_diag (kernels s')) (m_log_scale (hyper s'))
           (num_cols (m_kuu (kernels s'))) /\
     (inducing_count_consistent s' ->
      S = posterior_covariance_formula
            (m_V (factors s')) (m_chol_utr (factors s'))
            (m_ktrtr_diag (kernels s')) (m_log_scale (hyper s'))
            (num_cols (m_chol_utr (factors s'))))) /\
  (forall s1 s2 : FITCInferenceMethod,
     parameter_hash_changed s1 = false ->
     parameter_hash_changed s2 = false ->
     inducing_count_consistent s1 -> inducing_count_consistent s2 ->
     m_V (factors s1) = m_V (factors s2) ->
     m_chol_utr (factors s1) = m_chol_utr (factors s2) ->
     m_ktrtr_diag (kernels s1) = m_ktrtr_diag (kernels s2) ->
     m_log_scale (hyper s1) = m_log_scale (hyper s2) ->
     value_of (get_posterior_covariance s1)
     = value_of (get_posterior_covariance s2)) /\
  (forall s1 s2 : FITCInferenceMethod,
     hyper s1 = hyper s2 -> m_hash s1 = m_hash s2 ->
     kernels s1 = kernels s2 -> factors s1 = factors s2 ->
     value_of (get_posterior_covariance s1)
     = value_of (get_posterior_covariance s2)) /\
  (forall s s' : FITCInferenceMethod,
     update s = Ok (tt, s') ->
     num_cols (kernel_uu (hyper s)) = num_rows (kernel_uu (hyper s)) ->
     inducing_count_consistent s').
Proof.
  split; [|split; [|split]].
  - intros s s' S. rewrite get_posterior_covariance_run. unfold bind.
    destruct (compute_gradient s) as [[[] s1] | msg]; [|discriminate].
    intros H. inversion H. subst S s'. clear H.
    cbn [with_Sigma kernels factors hyper].
    unfold inducing_count_consistent. cbn [with_Sigma kernels factors].
    rewrite posterior_covariance_of_formula.
    split; [reflexivity|]. now intros <-.
  - intros s1 s2 H1 H2 C1 C2 HV HL Hk Hs.
    rewrite !get_posterior_covariance_run. unfold bind.
    destruct (compute_gradient_keeps_core s1 H1) as (a & -> & Ha1 & Ha2 & Ha3).
    destruct (compute_gradient_keeps_core s2 H2) as (b & -> & Hb1 & Hb2 & Hb3).
    cbn [value_of]. f_equal. rewrite !posterior_covariance_of_formula.
    unfold inducing_count_consistent in C1, C2.
    rewrite Ha1, Ha2, Ha3, Hb1, Hb2, Hb3, C1, C2.
    now rewrite HV, HL, Hk, Hs.
  - intros s1 s2 Hh Hm Hk Hf.
    pose proof (compute_gradient_core s1 s2 Hh Hm Hk Hf) as H.
    rewrite !get_posterior_covariance_run. unfold bind.
    destruct (compute_gradient s1) as [[[] a] | m1],
             (compute_gradient s2) as [[[] b] | m2]; try contradiction.
    + destruct H as (Ha & Hb & Hc). cbn [value_of].
      unfold posterior_covariance_of. now rewrite Ha, Hb, Hc.
    + cbn [value_of]. now subst.
  - intros s s' H Hsq. apply update_inv in H. destruct H as [-> _].
    unfold inducing_count_consistent.
    cbn [after_update kernels factors factors_of m_kuu m_chol_utr].
    rewrite Hsq. reflexivity.
Qed.

(** *** C8: who runs [compute_gradient()] *)

Lemma compute_gradient_twice (s s' : FITCInferenceMethod) :
  compute_gradient s = Ok (tt, s') -> compute_gradient s' = Ok (tt, s').
Proof.
  intros H. apply compute_gradient_inv in H. destruct H as (Hd & _).
  unfold gradient_dirty in Hd. apply orb_false_iff in Hd.
  destruct Hd as [Hh Hg]. apply negb_false_iff in Hg.
  now rewrite compute_gradient_run, Inference_compute_gradient_run, Hh, Hg.
Qed.

Lemma routes_through_prefix {A} (k : Run A) :
  routes_through_compute_gradient (compute_gradient ;;; k).
Proof.
  intros s. unfold bind.
  destruct (compute_gradient s) as [[[] s'] | msg] eqn:E; trivial.
  now rewrite (compute_gradient_twice s E).
Qed.

(** C8 (amended). [get_posterior_mean()] and [get_posterior_covariance()]
    route through [compute_gradient()].
    [get_derivative_wrt_likelihood_model] does not call it: when it
    returns, it has evaluated its formula on the cached [t], [Rvdd], [al]
    as they stood and has left the engine, gradient flag and recorded hash
    included, as it was but for the call to the likelihood provider.
    It is the caller path that routes through [compute_gradient()]: there
    the formula is evaluated on an engine whose gradient-stale flag is
    clear. *)
Theorem derivative_relies_on_caller :
  routes_through_compute_gradient get_posterior_mean /\
  routes_through_compute_gradient get_posterior_covariance /\
  (forall (s s' : FITCInferenceMethod) (r : SGVector),
     get_derivative_wrt_likelihood_model "log_sigma" s = Ok (r, s') ->
     s' = with_events (events s ++ [call_get_sigma]) s /\
     r = [dnlZ_lik_formula (sigma (hyper s)) (m_t (factors s))
                           (m_Rvdd (derivs s)) (m_al (derivs s))]) /\
  (forall param : string,
     routes_through_compute_gradient (gradient_wrt_likelihood_model param)) /\
  (forall (s s' : FITCInferenceMethod) (r : SGVector),
     gradient_wrt_likelihood_model "log_sigma" s = Ok (r, s') ->
     exists s1 : FITCInferenceMethod,
       compute_gradient s = Ok (tt, s1) /\
       gradient_dirty s1 = false /\
       r = [dnlZ_lik_formula (sigma (hyper s1)) (m_t (factors s1))
                             (m_Rvdd (derivs s1)) (m_al (derivs s1))]).
Proof.
  assert (G : forall (s s' : FITCInferenceMethod) (r : SGVector),
     get_derivative_wrt_likelihood_model "log_sigma" s = Ok (r, s') ->
     s' = with_events (events s ++ [call_get_sigma]) s /\
     r = [dnlZ_lik_formula (sigma (hyper s)) (m_t (factors s))
                           (m_Rvdd (derivs s)) (m_al (derivs s))]).
  { intros s s' r. rewrite get_derivative_log_sigma_run.
    unfold get_sigma, emit, modify, get, ret, error, throw, bind.
    destruct (model_type_eqb (model_type (hyper s)) LT_GAUSSIAN);
      [|discriminate].
    intros H. inversion H. auto. }
  split; [apply routes_through_prefix|].
  split; [apply routes_through_prefix|].
  split; [exact G|].
  split; [intros param; apply routes_through_prefix|].
  intros s s' r. unfold gradient_wrt_likelihood_model. unfold bind at 1.
  destruct (compute_gradient s) as [[[] s1] | msg] eqn:E; [|discriminate].
  intros H. exists s1. split; [reflexivity|]. split.
  - now apply compute_gradient_inv in E.
  - now apply G in H.
Qed.

(** *** C9: the down-cast helper *)

Lemma inference_type_eqb_eq (a b : EInferenceType) :
  inference_type_eqb a b = true <-> a = b.
Proof.
  destruct a as [| x], b as [| y]; cbn; split; intros H;
    try discriminate; trivial.
  - apply Nat.eqb_eq in H. now subst.
  - inversion H. apply Nat.eqb_refl.
Qed.

(** C9 (amended). A null handle is answered with a null result
    and no error.  A non-null inference object whose inference type is not
    FITC regression makes the call fail at once with an error naming the
    expected type, [FITCInferenceMethod]; and a non-null handle is never
    answered with a null result. *)
Theorem obtain_from_generic_checked :
  obtain_from_generic None = Ok None /\
  (forall inf : Inference,
     get_inference_type inf <> INF_FITC_REGRESSION ->
     obtain_from_generic (Some inf) =
       Throw "Provided inference is not of type FITCInferenceMethod!" /\
     names "Provided inference is not of type FITCInferenceMethod!"
           "FITCInferenceMethod") /\
  (forall (inf : Inference) (r : option FITCInferenceMethod),
     obtain_from_generic (Some inf) = Ok r -> r <> None).
Proof.
  split; [reflexivity|]. split.
  - intros inf H. split.
    + unfold obtain_from_generic.
      destruct (inference_type_eqb (get_inference_type inf) INF_FITC_REGRESSION)
        eqn:E; trivial.
      apply inference_type_eqb_eq in E. contradiction.
    + exists "Provided inference is not of type "%string, "!"%string.
      reflexivity.
  - intros inf r. unfold obtain_from_generic, as_FITCInferenceMethod.
    destruct (negb _); [discriminate|].
    destruct (dynamic_FITC inf); [|discriminate].
    intros H. inversion H. discriminate.
Qed.

(** *** C2: the reciprocal is taken unconditionally *)

(** the vector of lines 195-197 is the formula of the specification *)
Lemma g_sn2_is_formula (sig : float64_t) (h : Hyper) (k : Kernels) (i : nat) :
  i < vlen (m_ktrtr_diag k) ->
  nth i (g_sn2_of sig h k) f0
  = residual_variance_formula (m_ktrtr_diag k) (m_log_scale h) sig
                              (V_of h k) i.
Proof.
  intros Hi. unfold g_sn2_of. rewrite nth_assign_vec by exact Hi.
  cbn [dense_sub dense_add times_scalar scalar_times Ones Map_vec coeff].
  rewrite colsum_sq_coeff, scale_sq_formula. unfold Math_sq.
  now rewrite fmul_1_r.
Qed.

Lemma t_is_reciprocal (sig : float64_t) (h : Hyper) (k : Kernels) (i : nat) :
  i < vlen (m_ktrtr_diag k) ->
  nth i (t_of sig h k) f0
  = (f1 / residual_variance_formula (m_ktrtr_diag k) (m_log_scale h) sig
                                    (V_of h k) i)%f64.
Proof.
  intros Hi. unfold t_of. rewrite nth_assign_vec by exact Hi.
  cbn [cwiseQuotient Ones Map_vec coeff]. now rewrite g_sn2_is_formula.
Qed.

(** C2 (amended). [update()] compares no entry of the vector
    [Ktrtr_diag*exp(2*log_scale) + sigma^2 - colSums(V.*V)] with zero: the
    only errors it raises are the precondition failures of
    [check_members], and when it returns, [t] has one entry per training
    point and every entry of [t] is the reciprocal of the corresponding
    entry of that vector, whatever its sign.  An entry of [t] is strictly
    positive whenever the entry it inverts is strictly positive and lies
    in a set of values on which the reciprocal of a strictly positive
    number is strictly positive (all the reals; the finite doubles). *)
Theorem update_inverts_unchecked :
  (forall (s : FITCInferenceMethod) (msg : string),
     update s = Throw msg -> check_failure (hyper s) = Some msg) /\
  (forall s s' : FITCInferenceMethod,
     update s = Ok (tt, s') ->
     vlen (m_t (factors s')) = vlen (m_ktrtr_diag (kernels s')) /\
     forall i, i < vlen (m_t (factors s')) ->
       nth i (m_t (factors s')) f0
       = (f1 / residual_variance_formula
                 (m_ktrtr_diag (kernels s')) (m_log_scale (hyper s'))
                 (sigma (hyper s')) (m_V (factors s')) i)%f64) /\
  (forall (good : float64_t -> Prop),
     (forall x, good x -> flt f0 x = true -> flt f0 (f1 / x)%f64 = true) ->
     forall s s' : FITCInferenceMethod,
       update s = Ok (tt, s') ->
       forall i, i < vlen (m_t (factors s')) ->
         let g := residual_variance_formula
                    (m_ktrtr_diag (kernels s')) (m_log_scale (hyper s'))
                    (sigma (hyper s')) (m_V (factors s')) i in
         good g -> flt f0 g = true ->
         flt f0 (nth i (m_t (factors s')) f0) = true).
Proof.
  assert (G : forall s s' : FITCInferenceMethod,
     update s = Ok (tt, s') ->
     vlen (m_t (factors s')) = vlen (m_ktrtr_diag (kernels s')) /\
     forall i, i < vlen (m_t (factors s')) ->
       nth i (m_t (factors s')) f0
       = (f1 / residual_variance_formula
                 (m_ktrtr_diag (kernels s')) (m_log_scale (hyper s'))
                 (sigma (hyper s')) (m_V (factors s')) i)%f64).
  { intros s s' H. apply update_inv in H. destruct H as [-> _].
    cbn [after_update kernels factors factors_of m_t m_V hyper].
    set (k := mkKernels (kernel_uu (hyper s)) (kernel_tru (hyper s))
                        (kernel_diag (hyper s))).
    assert (L : vlen (t_of (sigma (hyper s)) (hyper s) k)
                = vlen (m_ktrtr_diag k))
      by (unfold t_of; now rewrite length_assign_vec).
    split; [exact L|]. rewrite L. intros i Hi.
    now apply t_is_reciprocal. }
  split; [|split; [exact G|]].
  - intros s msg. rewrite update_run.
    destruct (check_failure (hyper s)); [|discriminate].
    intros H. now inversion H.
  - intros good Hpos s s' H i Hi g Hg Hp.
    destruct (G s s' H) as [_ E]. rewrite (E i Hi). now apply Hpos.
Qed.

End Properties.

(** ** The model evaluated: one training point, one inducing point *)

Section RealScenario.
Local Open Scope R_scope.

Ltac Rcompute :=
  cbv -[Rplus Rminus Rmult Rdiv Ropp Rinv IZR sqrt exp ln PI Rle_dec Rlt_dec].

Lemma Rleb_pos (x : R) : 0 < x -> Rleb x 0 = false.
Proof. intros H. unfold Rleb. destruct (Rle_dec x 0); trivial. lra. Qed.

Lemma Rleb_nonpos (x : R) : x <= 0 -> Rleb x 0 = true.
Proof. intros H. unfold Rleb. destruct (Rle_dec x 0); trivial. lra. Qed.

Lemma Rltb_pos (x : R) : Rltb 0 x = true <-> 0 < x.
Proof.
  unfold Rltb. destruct (Rlt_dec 0 x) as [H | H]; split; trivial.
  - discriminate.
  - intros H'. contradiction.
Qed.

Lemma Rinv_pos (x : R) : Rltb 0 x = true -> Rltb 0 (1 / x) = true.
Proof.
  rewrite !Rltb_pos. intros H. apply Rdiv_lt_0_compat; lra.
Qed.

(** [LLT] of a 1 x 1 matrix with a positive entry *)
Lemma chol_1x1 (a : @Dense Float64_R) :
  rows a = 1%nat -> 0 < coeff a 0 0 ->
  llt_size (LLT_compute a) = 1%nat /\
  coeff (matrixU (LLT_compute a)) 0 0 = sqrt (coeff a 0 0).
Proof.
  intros Hr Hp. unfold LLT_compute. rewrite Hr.
  cbn [llt_unblocked Nat.ltb Nat.leb].
  change (fle (coeff a 0 0) f0) with (Rleb (coeff a 0 0) 0).
  rewrite (Rleb_pos Hp). cbn. auto.
Qed.

Lemma scale_sq_1x1 (ktru sig : R) : scale_sq (hyper_1x1 ktru sig) = 1.
Proof.
  unfold scale_sq. cbn [hyper_1x1 m_log_scale].
  change (exp (0 * 2) = 1). now rewrite Rmult_0_l, exp_0.
Qed.

Lemma chol_uu_1x1 (ktru sig : R) :
  chol_uu_of (hyper_1x1 ktru sig) (kernels_1x1 ktru) = one_by_one 1.
Proof.
  unfold chol_uu_of, chol_Luu.
  set (a := dense_add _ _).
  assert (Ha : coeff a 0 0 = 1).
  { unfold a.
    cbn [dense_add times_scalar scalar_times Identity coeff Map_mat
         kernels_1x1 m_kuu one_by_one num_rows matrix Nat.mul Nat.add nth
         Nat.eqb hyper_1x1 m_log_ind_noise].
    rewrite scale_sq_1x1. change (0 * 1 + exp 0 * 1 = 1). rewrite exp_0. lra. }
  destruct (@chol_1x1 a eq_refl) as [H1 H2]. { rewrite Ha. lra. }
  cbv zeta. rewrite H1. unfold assign_mat. cbn [seq flat_map map app].
  rewrite H2, Ha, sqrt_1. reflexivity.
Qed.

Lemma V_1x1 (ktru sig : R) :
  V_of (hyper_1x1 ktru sig) (kernels_1x1 ktru) = one_by_one ktru.
Proof.
  unfold V_of. rewrite chol_uu_1x1, scale_sq_1x1. Rcompute.
  unfold one_by_one. do 2 f_equal. lra.
Qed.

Lemma g_sn2_1x1 (ktru sig sig' : R) :
  g_sn2_of sig (hyper_1x1 ktru sig') (kernels_1x1 ktru)
  = [1 + sig * sig - ktru * ktru].
Proof.
  unfold g_sn2_of. rewrite V_1x1, scale_sq_1x1. Rcompute.
  f_equal. lra.
Qed.

Lemma t_1x1 (ktru sig sig' : R) :
  t_of sig (hyper_1x1 ktru sig') (kernels_1x1 ktru)
  = [1 / (1 + sig * sig - ktru * ktru)].
Proof. unfold t_of. rewrite g_sn2_1x1. reflexivity. Qed.

Lemma chol_utr_1x1 (sig sig' : R) :
  chol_utr_of sig (hyper_1x1 0 sig') (kernels_1x1 0) = one_by_one 1.
Proof.
  unfold chol_utr_of. rewrite V_1x1, t_1x1.
  set (a := dense_add _ _).
  assert (Ha : coeff a 0 0 = 1).
  { unfold a. Rcompute. lra. }
  destruct (@chol_1x1 a eq_refl) as [H1 H2]. { rewrite Ha. lra. }
  cbv zeta. rewrite H1. unfold assign_mat. cbn [seq flat_map map app].
  rewrite H2, Ha, sqrt_1. reflexivity.
Qed.

Lemma be_1x1 (sig sig' : R) :
  m_be (factors_of sig (hyper_1x1 0 sig') (kernels_1x1 0) [1] [0]) = [0].
Proof.
  unfold factors_of. cbn [m_be]. rewrite chol_utr_1x1, V_1x1, t_1x1.
  Rcompute. f_equal. lra.
Qed.

Lemma factors_1x1 (sig sig' : R) :
  let f := factors_of sig (hyper_1x1 0 sig') (kernels_1x1 0) [1] [0] in
  m_V f = one_by_one 0 /\ m_chol_utr f = one_by_one 1 /\
  m_t f = [1 / (1 + sig * sig)] /\ m_be f = [0].
Proof.
  intros f. split; [|split; [|split]].
  - apply (V_1x1 0 sig').
  - apply chol_utr_1x1.
  - unfold f, factors_of. cbn [m_t]. rewrite t_1x1. do 2 f_equal. lra.
  - apply be_1x1.
Qed.

Lemma derivs_1x1 (sig sig' : R) :
  let f := factors_of sig (hyper_1x1 0 sig') (kernels_1x1 0) [1] [0] in
  let d := derivs_of (hyper_1x1 0 sig') (kernels_1x1 0) f [1] [0] in
  m_al d = [1 / (1 + sig * sig)] /\ m_Rvdd d = one_by_one 0.
Proof.
  intros f d. destruct (factors_1x1 sig sig') as (HV & HL & Ht & Hb).
  fold f in HV, HL, Ht, Hb.
  unfold d, derivs_of. cbn [m_al m_Rvdd]. rewrite HV, HL, Ht, Hb.
  split.
  - Rcompute. f_equal. field. nra.
  - Rcompute. unfold one_by_one. do 2 f_equal. field. nra.
Qed.

(** the derivative formula on cached quantities of this shape *)
Lemma dnlZ_1x1 (sig t : R) :
  dnlZ_lik_formula sig [t] (one_by_one 0) [t] = sig * sig * (t - t * t).
Proof. Rcompute. lra. Qed.

Lemma hash_changed_fresh (h : @Hyper Float64_R) (a b c : R) :
  sigma h <> c -> parameter_hash_changed (fresh_engine h (a, b, c)) = true.
Proof.
  intros H. unfold parameter_hash_changed.
  destruct (hash_eq_dec _ _) as [E | E]; trivial.
  cbn in E. inversion E. contradiction.
Qed.

Lemma hash_changed_1x1 (ktru sig : R) :
  sig <> 0 -> parameter_hash_changed (engine_1x1 ktru sig) = true.
Proof. intros H. now apply hash_changed_fresh. Qed.

Lemma update_1x1 (ktru sig : R) :
  update (engine_1x1 ktru sig) = Ok (tt, after_update (engine_1x1 ktru sig)).
Proof. now rewrite update_run. Qed.

Lemma compute_gradient_1x1 (ktru sig : R) :
  sig <> 0 ->
  compute_gradient (engine_1x1 ktru sig)
  = Ok (tt, after_deriv (after_update (engine_1x1 ktru sig))).
Proof.
  intros H. apply compute_gradient_recomputes; [|reflexivity].
  now apply hash_changed_1x1.
Qed.

Lemma compute_gradient_2x1 :
  compute_gradient engine_2x1 = Ok (tt, after_deriv (after_update engine_2x1)).
Proof.
  apply compute_gradient_recomputes; [|reflexivity].
  apply hash_changed_fresh. cbn. lra.
Qed.


Lemma stale_engine_dirty : parameter_hash_changed stale_engine = true.
Proof.
  unfold parameter_hash_changed.
  destruct (hash_eq_dec _ _) as [E | E]; trivial.
  cbn in E. inversion E. lra.
Qed.

Lemma derivative_value_stale :
  value_of (get_derivative_wrt_likelihood_model "log_sigma" stale_engine)
  = Ok [1].
Proof.
  rewrite get_derivative_log_sigma_run. unfold bind.
  rewrite get_sigma_gaussian by reflexivity. cbn [ret value_of].
  destruct (factors_1x1 1 1) as (_ & _ & Ht & _).
  destruct (derivs_1x1 1 1) as (Hal & HW).
  change (m_t (factors stale_engine))
    with (m_t (factors_of 1 (hyper_1x1 0 1) (kernels_1x1 0) [1] [0])).
  change (m_al (derivs stale_engine))
    with (m_al (derivs_of (hyper_1x1 0 1) (kernels_1x1 0)
                  (factors_of 1 (hyper_1x1 0 1) (kernels_1x1 0) [1] [0])
                  [1] [0])).
  change (m_Rvdd (derivs stale_engine))
    with (m_Rvdd (derivs_of (hyper_1x1 0 1) (kernels_1x1 0)
                  (factors_of 1 (hyper_1x1 0 1) (kernels_1x1 0) [1] [0])
                  [1] [0])).
  rewrite Ht, Hal, HW, dnlZ_1x1.
  change (sigma (hyper stale_engine)) with 2.
  do 2 f_equal. field.
Qed.

Lemma derivative_value_fresh :
  value_of ((compute_gradient ;;;
             get_derivative_wrt_likelihood_model "log_sigma") stale_engine)
  = Ok [16 / 25].
Proof.
  unfold bind at 1.
  rewrite compute_gradient_recomputes
    by (apply stale_engine_dirty || reflexivity).
  rewrite get_derivative_log_sigma_run. unfold bind.
  rewrite get_sigma_gaussian by reflexivity. cbn [ret value_of].
  destruct (factors_1x1 2 2) as (_ & _ & Ht & _).
  destruct (derivs_1x1 2 2) as (Hal & HW).
  set (s := after_deriv (after_update stale_engine)).
  change (m_t (factors s))
    with (m_t (factors_of 2 (hyper_1x1 0 2) (kernels_1x1 0) [1] [0])).
  change (m_al (derivs s))
    with (m_al (derivs_of (hyper_1x1 0 2) (kernels_1x1 0)
                  (factors_of 2 (hyper_1x1 0 2) (kernels_1x1 0) [1] [0])
                  [1] [0])).
  change (m_Rvdd (derivs s))
    with (m_Rvdd (derivs_of (hyper_1x1 0 2) (kernels_1x1 0)
                  (factors_of 2 (hyper_1x1 0 2) (kernels_1x1 0) [1] [0])
                  [1] [0])).
  rewrite Ht, Hal, HW, dnlZ_1x1.
  change (sigma (hyper s)) with 2.
  do 2 f_equal. field.
Qed.

(** Counterexample to C8 as stated: on the engine left by a first
    [compute_gradient()] whose noise was then changed from 1 to 2,
    [get_derivative_wrt_likelihood_model] answers 1, computed from the [t]
    and [al] of the old noise, where the same call behind
    [compute_gradient()] answers 16/25. *)
Lemma derivative_on_stale_state :
  compute_gradient (engine_1x1 0 1) = Ok (tt, current_engine) /\
  gradient_dirty stale_engine = true /\
  value_of (get_derivative_wrt_likelihood_model "log_sigma" stale_engine)
    = Ok [1] /\
  value_of ((compute_gradient ;;;
             get_derivative_wrt_likelihood_model "log_sigma") stale_engine)
    = Ok [16 / 25] /\
  ~ routes_through_compute_gradient
      (get_derivative_wrt_likelihood_model "log_sigma").
Proof.
  split; [apply compute_gradient_1x1; lra|].
  split; [unfold gradient_dirty; now rewrite stale_engine_dirty|].
  split; [exact derivative_value_stale|].
  split; [exact derivative_value_fresh|].
  intros H. specialize (H stale_engine).
  apply (f_equal value_of) in H.
  rewrite derivative_value_stale, derivative_value_fresh in H.
  inversion H. lra.
Qed.

(** Counterexample to C2 as stated: with a covariance provider answering
    Kuu = 0, Ktru = 2, Ktrtr_diag = 1 and noise 1, the vector to invert is
    [-2]; [update()] returns normally and caches [t = [1/(-2)]]. *)
Lemma update_accepts_negative_entry :
  let s := engine_1x1 2 1 in
  update s = Ok (tt, after_update s) /\
  g_sn2_of (sigma (hyper s)) (hyper s) (kernels (after_update s)) = [-2] /\
  fle (-2) f0 = true /\
  m_t (factors (after_update s)) = [1 / -2] /\
  flt f0 (1 / -2) = false.
Proof.
  intros s. split; [apply update_1x1|].
  assert (G : g_sn2_of (sigma (hyper s)) (hyper s) (kernels (after_update s))
              = [-2]).
  { change (g_sn2_of 1 (hyper_1x1 2 1) (kernels_1x1 2) = [-2]).
    rewrite g_sn2_1x1. f_equal. lra. }
  split; [exact G|].
  split; [apply Rleb_nonpos; lra|].
  split.
  - change (t_of (sigma (hyper s)) (hyper s) (kernels (after_update s))
            = [1 / -2]).
    unfold t_of. rewrite G. reflexivity.
  - change (Rltb 0 (1 / -2) = false). unfold Rltb.
    destruct (Rlt_dec 0 (1 / -2)) as [H | H]; trivial. lra.
Qed.

(** Counterexample to C9 as stated: the null handle is answered with the
    null result, not with an error. *)
Lemma obtain_from_generic_null :
  @obtain_from_generic Float64_R Hashing_R None = Ok None.
Proof. reflexivity. Qed.

(** On the scenario the two formulas for the posterior mean differ, and
    [get_posterior_mean()] answers the FITC one. *)
Lemma fitc_mean_is_not_exact_mean :
  let s1 := after_deriv (after_update (engine_1x1 0 1)) in
  value_of (get_posterior_mean (engine_1x1 0 1)) = Ok [0] /\
  exact_posterior_mean_formula (labels (hyper s1)) (mean_vector (hyper s1))
    (m_al (derivs s1)) (sigma (hyper s1)) = [1 / 2].
Proof.
  intros s1.
  destruct (derivs_1x1 1 1) as (Hal & _).
  assert (Ha : m_al (derivs s1) = [1 / (1 + 1 * 1)]) by exact Hal.
  split.
  - unfold get_posterior_mean. unfold bind at 1.
    rewrite compute_gradient_1x1 by lra. fold s1.
    unfold bind, get, modify, ret. cbn [value_of].
    rewrite posterior_mean_of_formula.
    unfold posterior_mean_formula_of, posterior_mean_formula. rewrite Ha.
    set (alpha := m_alpha s1). Rcompute. do 2 f_equal. lra.
  - rewrite Ha. Rcompute. f_equal. lra.
Qed.

(** *** The theorems applied to the scenario *)

Lemma nlml_returns_formula_witness :
  let s0 := engine_1x1 0 1 in
  update s0 = Ok (tt, after_update s0) /\
  get_negative_log_marginal_likelihood (after_update s0)
  = Ok (nlml_formula_of (after_update s0), after_update s0).
Proof.
  intros s0. split; [apply update_1x1|].
  apply (proj2 nlml_returns_formula s0). apply update_1x1.
Defined.

Lemma residual_variance_1x1 :
  residual_variance_formula [1] 0 1 (one_by_one 0) 0 = 2.
Proof.
  Rcompute. replace (2 * 0) with 0 by lra. rewrite exp_0. lra.
Qed.

Lemma update_inverts_unchecked_witness :
  let s := engine_1x1 0 1 in
  let s' := after_update s in
  let g := residual_variance_formula
             (m_ktrtr_diag (kernels s')) (m_log_scale (hyper s'))
             (sigma (hyper s')) (m_V (factors s')) 0 in
  (forall x : R, True -> Rltb 0 x = true -> Rltb 0 (1 / x) = true) /\
  update s = Ok (tt, s') /\
  (0 < vlen (m_t (factors s')))%nat /\
  Rltb 0 g = true /\
  nth 0 (m_t (factors s')) 0 = 1 / g /\
  Rltb 0 (nth 0 (m_t (factors s')) 0) = true.
Proof.
  intros s s' g.
  assert (Hq : forall x : R, True -> Rltb 0 x = true -> Rltb 0 (1 / x) = true)
    by (intros x _; apply Rinv_pos).
  assert (Hu : update s = Ok (tt, s')) by apply update_1x1.
  assert (Hg : Rltb 0 g = true).
  { change g with (residual_variance_formula [1] 0 1
                     (V_of (hyper_1x1 0 1) (kernels_1x1 0)) 0).
    rewrite V_1x1, residual_variance_1x1. apply Rltb_pos. lra. }
  destruct (@update_inverts_unchecked Float64_R Hashing_R) as (_ & H2 & H3).
  destruct (H2 s s' Hu) as [Hl Hi].
  assert (H0 : (0 < vlen (m_t (factors s')))%nat) by (rewrite Hl; cbn; lia).
  split; [exact Hq|]. split; [exact Hu|]. split; [exact H0|].
  split; [exact Hg|]. split; [exact (Hi 0%nat H0)|].
  exact (H3 (fun _ => True) Hq s s' Hu 0%nat H0 I Hg).
Defined.

Lemma derivative_wrt_log_sigma_witness :
  let s := current_engine in
  model_type (hyper s) = LT_GAUSSIAN /\
  get_derivative_wrt_likelihood_model "log_sigma" s =
  Ok ([dnlZ_lik_formula (sigma (hyper s)) (m_t (factors s))
                        (m_Rvdd (derivs s)) (m_al (derivs s))],
      with_events (events s ++ [call_get_sigma]) s).
Proof.
  intros s. split; [reflexivity|].
  apply derivative_wrt_log_sigma. reflexivity.
Defined.

Lemma derivative_wrt_unsupported_witness :
  "wrong_name"%string <> "log_sigma"%string /\
  exists msg : string,
    get_derivative_wrt_likelihood_model "wrong_name" current_engine
      = Throw msg /\
    msg = "Can't compute derivative of the nagative log marginal likelihood wrt GaussianLikelihood.wrong_name parameter"%string /\
    names msg "wrong_name".
Proof.
  assert (H : "wrong_name"%string <> "log_sigma"%string) by discriminate.
  split; [exact H|].
  destruct (@derivative_wrt_unsupported _ _ "wrong_name" current_engine H)
    as (msg & H1 & H2 & H3).
  exists msg. split; [exact H1|]. split; [|exact H3].
  rewrite H2. reflexivity.
Defined.

Lemma posterior_mean_is_fitc_witness :
  let s := engine_1x1 0 1 in
  let s1 := after_deriv (after_update s) in
  let mu := posterior_mean_formula_of s1 in
  get_posterior_mean s = Ok (mu, with_mu mu s1) /\
  gradient_dirty s = true /\
  vlen mu = 1%nat.
Proof.
  intros s s1 mu.
  destruct (@posterior_mean_is_fitc Float64_R Hashing_R) as [G H].
  assert (Hc : compute_gradient s = Ok (tt, s1))
    by (apply compute_gradient_1x1; lra).
  assert (Hm : get_posterior_mean s = Ok (mu, with_mu mu s1))
    by (rewrite G; unfold bind; now rewrite Hc).
  assert (Hd : gradient_dirty s = true)
    by (unfold gradient_dirty, s;
        rewrite hash_changed_1x1 by lra; reflexivity).
  split; [exact Hm|]. split; [exact Hd|].
  destruct (H s _ mu Hm) as [_ Hn]. exact (Hn Hd).
Defined.

Lemma posterior_covariance_symmetric_witness :
  let s1 := after_deriv (after_update engine_2x1) in
  let S := posterior_covariance_of s1 in
  get_posterior_covariance engine_2x1 = Ok (S, with_Sigma S s1) /\
  num_rows S = 2%nat /\ num_cols S = 2%nat /\
  entry S 0 1 = entry S 1 0 /\
  entry S 0 1
  = posterior_covariance_entry
      (m_V (factors s1)) (m_chol_utr (factors s1))
      (m_ktrtr_diag (kernels s1)) (m_log_scale (hyper s1))
      (num_cols (m_kuu (kernels s1))) 0 1.
Proof.
  intros s1 S.
  assert (Hc : get_posterior_covariance engine_2x1 = Ok (S, with_Sigma S s1)).
  { rewrite get_posterior_covariance_run. unfold bind.
    now rewrite compute_gradient_2x1. }
  destruct (posterior_covariance_symmetric engine_2x1 Hc)
    as (Hr & Hcl & Hf & Hs).
  split; [exact Hc|]. split; [exact Hr|]. split; [exact Hcl|].
  split; [apply Hs; cbn; lia|].
  apply (Hf 0%nat 1%nat); cbn; lia.
Defined.

Lemma nlml_second_call_reads_cache_witness :
  let s := engine_1x1 0 1 in
  let s1 := after_update s in
  get_negative_log_marginal_likelihood s = Ok (nlml_formula_of s1, s1) /\
  get_negative_log_marginal_likelihood s1 = Ok (nlml_formula_of s1, s1) /\
  gradient_dirty current_engine = false /\
  compute_gradient current_engine = Ok (tt, current_engine).
Proof.
  intros s s1.
  destruct (@nlml_second_call_reads_cache Float64_R Hashing_R) as [H1 H2].
  assert (Hf : get_negative_log_marginal_likelihood s
               = Ok (nlml_formula_of s1, s1)).
  { rewrite get_nlml_run. unfold bind, s.
    rewrite hash_changed_1x1 by lra. now rewrite update_run. }
  assert (Hd : gradient_dirty current_engine = false).
  { unfold gradient_dirty, current_engine.
    now rewrite after_deriv_unchanged. }
  split; [exact Hf|]. split; [exact (proj2 (H1 s s1 _ Hf))|].
  split; [exact Hd | exact (H2 _ Hd)].
Defined.

Lemma derivative_relies_on_caller_witness :
  let s := stale_engine in
  let r := [dnlZ_lik_formula (sigma (hyper s)) (m_t (factors s))
                             (m_Rvdd (derivs s)) (m_al (derivs s))] in
  let s' := with_events (events s ++ [call_get_sigma]) s in
  let s1 := after_deriv (after_update s) in
  let r1 := [dnlZ_lik_formula (sigma (hyper s1)) (m_t (factors s1))
                              (m_Rvdd (derivs s1)) (m_al (derivs s1))] in
  get_derivative_wrt_likelihood_model "log_sigma" s = Ok (r, s') /\
  gradient_dirty s' = true /\
  gradient_wrt_likelihood_model "log_sigma" s
    = Ok (r1, with_events (events s1 ++ [call_get_sigma]) s1) /\
  gradient_dirty s1 = false.
Proof.
  intros s r s' s1 r1.
  destruct (@derivative_relies_on_caller Float64_R Hashing_R)
    as (_ & _ & H3 & _ & H5).
  assert (Hg : get_derivative_wrt_likelihood_model "log_sigma" s
               = Ok (r, s')).
  { rewrite get_derivative_log_sigma_run. unfold bind.
    now rewrite get_sigma_gaussian by reflexivity. }
  assert (Hc : compute_gradient s = Ok (tt, s1))
    by exact (compute_gradient_recomputes stale_engine stale_engine_dirty
                eq_refl).
  assert (Hp : gradient_wrt_likelihood_model "log_sigma" s
               = Ok (r1, with_events (events s1 ++ [call_get_sigma]) s1)).
  { unfold gradient_wrt_likelihood_model. unfold bind at 1. rewrite Hc.
    rewrite get_derivative_log_sigma_run. unfold bind.
    now rewrite get_sigma_gaussian by reflexivity. }
  split; [exact Hg|]. split.
  - destruct (H3 s _ _ Hg) as [_ _].
    unfold gradient_dirty.
    change (parameter_hash_changed s') with (parameter_hash_changed stale_engine).
    now rewrite stale_engine_dirty.
  - split; [exact Hp|].
    destruct (H5 s _ _ Hp) as (s2 & E & Hd & _).
    rewrite Hc in E. inversion E. subst s2. exact Hd.
Defined.

Lemma obtain_from_generic_checked_witness :
  let other := mkInference (INF_OTHER 0) None in
  let fitc := mkInference INF_FITC_REGRESSION (Some current_engine) in
  get_inference_type other <> INF_FITC_REGRESSION /\
  obtain_from_generic (Some other)
    = Throw "Provided inference is not of type FITCInferenceMethod!" /\
  obtain_from_generic (Some fitc) = Ok (Some current_engine) /\
  Some current_engine <> None.
Proof.
  intros other fitc.
  destruct (@obtain_from_generic_checked Float64_R Hashing_R)
    as (_ & H2 & H3).
  assert (Hn : get_inference_type other <> INF_FITC_REGRESSION)
    by discriminate.
  assert (Ho : obtain_from_generic (Some fitc) = Ok (Some current_engine))
    by reflexivity.
  split; [exact Hn|]. split; [exact (proj1 (H2 other Hn))|].
  split; [exact Ho | exact (H3 fitc _ Ho)].
Defined.

Lemma computed_engine_2x1_clean : gradient_dirty computed_engine_2x1 = false.
Proof.
  unfold gradient_dirty, computed_engine_2x1.
  now rewrite after_deriv_unchanged.
Qed.

Lemma other_derivs_engine_2x1_clean :
  gradient_dirty other_derivs_engine_2x1 = false.
Proof.
  unfold gradient_dirty.
  rewrite hash_recorded_unchanged by reflexivity. reflexivity.
Qed.

Lemma derivs_2x1_differ :
  derivs computed_engine_2x1 <> derivs other_derivs_engine_2x1.
Proof.
  intros E. apply (f_equal (fun d => num_cols (m_B d))) in E.
  discriminate E.
Qed.

Lemma other_cache_engine_2x1_clean :
  gradient_dirty other_cache_engine_2x1 = false.
Proof.
  unfold gradient_dirty.
  rewrite hash_recorded_unchanged by reflexivity. reflexivity.
Qed.

Lemma caches_2x1_differ :
  derivs computed_engine_2x1 <> derivs other_cache_engine_2x1 /\
  m_t (factors computed_engine_2x1) <> m_t (factors other_cache_engine_2x1) /\
  labels (hyper computed_engine_2x1) <> labels (hyper other_cache_engine_2x1).
Proof.
  split; [|split].
  - intros E. apply (f_equal (fun d => num_cols (m_B d))) in E.
    discriminate E.
  - intros E. apply (f_equal vlen) in E. discriminate E.
  - intros E. apply (f_equal (fun v => nth 0 v 0)) in E.
    cbn in E. lra.
Qed.

Lemma caches_2x1_share :
  inducing_count_consistent computed_engine_2x1 /\
  inducing_count_consistent other_cache_engine_2x1 /\
  m_V (factors computed_engine_2x1) = m_V (factors other_cache_engine_2x1) /\
  m_chol_utr (factors computed_engine_2x1)
  = m_chol_utr (factors other_cache_engine_2x1) /\
  m_ktrtr_diag (kernels computed_engine_2x1)
  = m_ktrtr_diag (kernels other_cache_engine_2x1) /\
  m_log_scale (hyper computed_engine_2x1)
  = m_log_scale (hyper other_cache_engine_2x1).
Proof.
  unfold other_cache_engine_2x1, inducing_count_consistent.
  cbn [factors kernels hyper m_V m_chol_utr].
  repeat split; reflexivity.
Qed.

Lemma posterior_covariance_ignores_derivs_witness :
  let s1 := computed_engine_2x1 in
  let s2 := other_cache_engine_2x1 in
  gradient_dirty s1 = false /\ gradient_dirty s2 = false /\
  derivs s1 <> derivs s2 /\
  m_t (factors s1) <> m_t (factors s2) /\
  labels (hyper s1) <> labels (hyper s2) /\
  get_posterior_covariance s2
  = Ok (posterior_covariance_of s2, with_Sigma (posterior_covariance_of s2) s2) /\
  value_of (get_posterior_covariance s1)
  = value_of (get_posterior_covariance s2).
Proof.
  intros s1 s2.
  split; [exact computed_engine_2x1_clean|].
  split; [exact other_cache_engine_2x1_clean|].
  split; [exact (proj1 caches_2x1_differ)|].
  split; [exact (proj1 (proj2 caches_2x1_differ))|].
  split; [exact (proj2 (proj2 caches_2x1_differ))|].
  split; [exact (get_posterior_covariance_current _
                   other_cache_engine_2x1_clean)|].
  destruct caches_2x1_share as (C1 & C2 & EV & EL & Ek & Es).
  exact (proj1 (proj2 posterior_covariance_ignores_derivs) s1 s2
           (after_deriv_unchanged _)
           (hash_recorded_unchanged other_cache_engine_2x1 eq_refl)
           C1 C2 EV EL Ek Es).
Defined.

End RealScenario.

(** ** Properties of the remaining methods *)

Section MoreProperties.
Context {FA : Float64} {HA : Hashing}.

Lemma length_assign_mat (r c : nat) (e : Dense) :
  List.length (matrix (assign_mat r c e)) = r * c.
Proof.
  cbn [assign_mat matrix].
  rewrite (flat_map_constant_length (c := r)).
  - rewrite length_seq. apply Nat.mul_comm.
  - intros j _. now rewrite length_map, length_seq.
Qed.

Lemma has_shape_assign_mat (r c : nat) (e : Dense) :
  has_shape (assign_mat r c e) r c.
Proof. repeat split. apply length_assign_mat. Qed.

(** *** [update]: what it writes and what it leaves *)

(** X4. When [update()] returns, the hyperparameters are untouched, the
    covariance blocks are those of the provider, the gradient flag is
    lowered, the recorded hash is current, and the derivative quantities,
    [m_mu] and [m_Sigma] are exactly as they were: the engine is
    gradient-stale until [compute_gradient()] runs. *)
Theorem update_effects (s s' : FITCInferenceMethod) :
  update s = Ok (tt, s') ->
  hyper s' = hyper s /\
  kernels s' = mkKernels (kernel_uu (hyper s)) (kernel_tru (hyper s))
                         (kernel_diag (hyper s)) /\
  m_gradient_update s' = false /\
  parameter_hash_changed s' = false /\
  gradient_dirty s' = true /\
  derivs s' = derivs s /\ m_mu s' = m_mu s /\ m_Sigma s' = m_Sigma s.
Proof.
  intros H. apply update_inv in H. destruct H as [-> _].
  unfold gradient_dirty. rewrite after_update_unchanged.
  cbn. repeat split.
Qed.

(** X5. When [update()] returns, with [m] the number of rows of Kuu and
    [n] the length of the training diagonal: [chol_uu] and [chol_utr] are
    [m] x [m], [V] is [m] x (columns of Ktru), [L] has the shape of Kuu,
    [t] has [n] entries, [r] as many as there are targets, [be] and
    [alpha] have [m]; every matrix buffer holds rows times columns
    entries. *)
Theorem update_shapes (s s' : FITCInferenceMethod) :
  update s = Ok (tt, s') ->
  let h := hyper s in
  let m := num_rows (kernel_uu h) in
  let n := vlen (kernel_diag h) in
  has_shape (m_chol_uu (factors s')) m m /\
  has_shape (m_V (factors s')) m (num_cols (kernel_tru h)) /\
  vlen (m_t (factors s')) = n /\
  has_shape (m_chol_utr (factors s')) m m /\
  vlen (m_r (factors s')) = vlen (labels h) /\
  vlen (m_be (factors s')) = m /\
  has_shape (m_L (factors s')) m (num_cols (kernel_uu h)) /\
  vlen (m_alpha s') = m.
Proof.
  intros H h m n. apply update_inv in H. destruct H as [-> _].
  cbn [after_update factors m_alpha factors_of m_chol_uu m_V m_t m_chol_utr
       m_r m_be m_L].
  fold h.
  split; [apply has_shape_assign_mat|].
  split; [apply has_shape_assign_mat|].
  split; [unfold t_of; apply length_assign_vec|].
  split; [apply has_shape_assign_mat|].
  split; [apply length_assign_vec|].
  split; [apply length_assign_vec|].
  split; [apply has_shape_assign_mat|].
  unfold alpha_of. apply length_assign_vec.
Qed.


(** *** [check_members] *)

Lemma model_type_eqb_eq (a b : ELikelihoodModelType) :
  model_type_eqb a b = true <-> a = b.
Proof.
  destruct a as [| x], b as [| y]; cbn; split; intros H;
    try discriminate; trivial.
  - apply Nat.eqb_eq in H. now subst.
  - inversion H. apply Nat.eqb_refl.
Qed.

Lemma label_type_eqb_eq (a b : ELabelType) :
  label_type_eqb a b = true <-> a = b.
Proof.
  destruct a as [| x], b as [| y]; cbn; split; intros H;
    try discriminate; trivial.
  - apply Nat.eqb_eq in H. now subst.
  - inversion H. apply Nat.eqb_refl.
Qed.

(** X3. Once the check of the base class has passed, [check_members]
    throws "FITC inference method can only use Gaussian likelihood
    function" when the likelihood is not Gaussian, whatever the labels are;
    it throws "Labels must be type of RegressionLabels" when the likelihood
    is Gaussian and the labels are not regression labels; otherwise it
    returns and leaves the engine untouched.  [update()] fails with the
    same messages. *)
Theorem check_members_errors (s : FITCInferenceMethod) :
  SingleFITCInference_check_members s = Ok (tt, s) ->
  (model_type (hyper s) <> LT_GAUSSIAN ->
   check_members s
     = Throw "FITC inference method can only use Gaussian likelihood function" /\
   update s
     = Throw "FITC inference method can only use Gaussian likelihood function") /\
  (model_type (hyper s) = LT_GAUSSIAN ->
   label_type (hyper s) <> LT_REGRESSION ->
   check_members s = Throw "Labels must be type of RegressionLabels" /\
   update s = Throw "Labels must be type of RegressionLabels") /\
  (model_type (hyper s) = LT_GAUSSIAN ->
   label_type (hyper s) = LT_REGRESSION ->
   check_members s = Ok (tt, s)).
Proof.
  intros Hb.
  assert (Hn : Nat.ltb 0 (num_rows (kernel_uu (hyper s))) = true).
  { revert Hb. unfold SingleFITCInference_check_members, bind, get, require,
      throw.
    destruct (Nat.ltb 0 (num_rows (kernel_uu (hyper s)))); trivial.
    discriminate. }
  rewrite update_run, check_members_run. unfold check_failure. rewrite Hn.
  cbn [negb].
  split; [|split].
  - intros Hm.
    destruct (model_type_eqb (model_type (hyper s)) LT_GAUSSIAN) eqn:E.
    + apply model_type_eqb_eq in E. contradiction.
    + cbn. auto.
  - intros Hm Hl. apply model_type_eqb_eq in Hm. rewrite Hm. cbn [negb].
    destruct (label_type_eqb (label_type (hyper s)) LT_REGRESSION) eqn:E.
    + apply label_type_eqb_eq in E. contradiction.
    + cbn. auto.
  - intros Hm Hl. apply model_type_eqb_eq in Hm.
    apply label_type_eqb_eq in Hl. now rewrite Hm, Hl.
Qed.

(** *** Errors of the accessors *)

Lemma compute_gradient_throws (s : FITCInferenceMethod) (msg : string) :
  compute_gradient s = Throw msg <->
  parameter_hash_changed s = true /\ check_failure (hyper s) = Some msg.
Proof.
  rewrite compute_gradient_run, Inference_compute_gradient_run.
  destruct (parameter_hash_changed s).
  - rewrite update_run. destruct (check_failure (hyper s)) as [m |].
    + split; [intros H; inversion H; auto | intros [_ H]; now inversion H].
    + cbn [after_update m_gradient_update].
      split; [discriminate | intros [_ H]; discriminate].
  - destruct (m_gradient_update s);
      (split; [discriminate | intros [H _]; discriminate]).
Qed.

Lemma get_posterior_mean_run (s : FITCInferenceMethod) :
  get_posterior_mean s =
  (compute_gradient ;;;
   (fun s' => Ok (posterior_mean_of s', with_mu (posterior_mean_of s') s'))) s.
Proof.
  unfold get_posterior_mean, bind, get, modify, ret.
  now destruct (compute_gradient s) as [[[] s'] | msg].
Qed.

(** X10. [get_negative_log_marginal_likelihood()], [compute_gradient()],
    [get_posterior_mean()] and [get_posterior_covariance()] throw in one
    situation only: the hyperparameter hash has changed and a precondition
    of [check_members] fails; the message is that of the failed
    precondition.  On an engine whose hash is current they always
    return. *)
Theorem accessors_throw_only_on_failed_update
    (s : FITCInferenceMethod) (msg : string) :
  let failed :=
    parameter_hash_changed s = true /\ check_failure (hyper s) = Some msg in
  (get_negative_log_marginal_likelihood s = Throw msg <-> failed) /\
  (compute_gradient s = Throw msg <-> failed) /\
  (get_posterior_mean s = Throw msg <-> failed) /\
  (get_posterior_covariance s = Throw msg <-> failed).
Proof.
  intros failed. unfold failed.
  split; [|split; [|split]].
  - rewrite get_nlml_run. unfold bind.
    destruct (parameter_hash_changed s).
    + rewrite update_run. destruct (check_failure (hyper s)) as [m |].
      * split; [intros H; inversion H; auto | intros [_ H]; now inversion H].
      * split; [discriminate | intros [_ H]; discriminate].
    + unfold ret. split; [discriminate | intros [H _]; discriminate].
  - apply compute_gradient_throws.
  - rewrite get_posterior_mean_run. unfold bind.
    destruct (compute_gradient s) as [[[] s'] | m] eqn:E.
    + split; [discriminate|]. intros H.
      apply compute_gradient_throws in H. congruence.
    + apply compute_gradient_throws in E. destruct E as [Eh Ec].
      split; [intros H; inversion H; subst; auto|].
      intros [_ H]. congruence.
  - rewrite get_posterior_covariance_run. unfold bind.
    destruct (compute_gradient s) as [[[] s'] | m] eqn:E.
    + split; [discriminate|]. intros H.
      apply compute_gradient_throws in H. congruence.
    + apply compute_gradient_throws in E. destruct E as [Eh Ec].
      split; [intros H; inversion H; subst; auto|].
      intros [_ H]. congruence.
Qed.

(** *** [get_diagonal_vector] *)

(** X1. When [get_diagonal_vector()] returns, its result has one entry per
    feature vector and every entry is [1/sigma] for the noise of the
    likelihood; the hyperparameters are untouched and the recorded hash is
    current.  On an engine whose hash was already current nothing is
    recomputed: the engine is left as it was but for the one call to the
    likelihood provider. *)
Theorem diagonal_vector_constant
    (s s' : FITCInferenceMethod) (v : SGVector) :
  get_diagonal_vector s = Ok (v, s') ->
  vlen v = num_vectors (hyper s) /\
  (forall i, i < vlen v -> nth i v f0 = (f1 / sigma (hyper s))%f64) /\
  hyper s' = hyper s /\
  parameter_hash_changed s' = false /\
  (parameter_hash_changed s = false ->
   s' = with_events (events s ++ [call_get_sigma]) s).
Proof.
  unfold get_diagonal_vector. unfold bind at 1, get at 1. unfold bind at 1.
  assert (G : forall s1 : FITCInferenceMethod,
            hyper s1 = hyper s -> parameter_hash_changed s1 = false ->
            (sig <- get_sigma ;; s2 <- get ;;
             ret (repeat (f1 / sig)%f64 (num_vectors (hyper s2)))) s1
              = Ok (v, s') ->
            vlen v = num_vectors (hyper s) /\
            (forall i, i < vlen v -> nth i v f0 = (f1 / sigma (hyper s))%f64) /\
            hyper s' = hyper s /\ parameter_hash_changed s' = false /\
            s' = with_events (events s1 ++ [call_get_sigma]) s1).
  { intros s1 Hh Hc.
    unfold get_sigma, emit, modify, get, ret, error, throw, bind.
    destruct (model_type_eqb (model_type (hyper s1)) LT_GAUSSIAN);
      [|discriminate].
    cbn [hyper with_events]. intros H. inversion H. subst v s'. clear H.
    rewrite Hh. unfold vlen. rewrite repeat_length.
    split; [reflexivity|]. split.
    - intros i Hi. apply nth_repeat_lt. exact Hi.
    - cbn [hyper with_events]. split; [exact Hh|]. split; [|reflexivity].
      exact Hc. }
  destruct (parameter_hash_changed s) eqn:E.
  - rewrite update_run. destruct (check_failure (hyper s)); [discriminate|].
    intros H. apply G in H; [|reflexivity | apply after_update_unchanged].
    destruct H as (H1 & H2 & H3 & H4 & _).
    repeat split; trivial. discriminate.
  - unfold ret at 1. intros H. apply G in H; trivial.
    destruct H as (H1 & H2 & H3 & H4 & H5). repeat split; trivial.
Qed.

(** *** [register_minimizer] *)

Lemma same_engine_events (l : list event) (s : FITCInferenceMethod) :
  same_engine (with_events l s) s.
Proof. reflexivity. Qed.

(** X2. [register_minimizer] never throws and changes nothing but the
    log, to which it adds its one warning; an [update()] that follows
    behaves as it would have without it: it fails with the same message or
    leaves the same engine but for the log. *)
Theorem register_minimizer_changes_nothing (s : FITCInferenceMethod) :
  (exists s', register_minimizer s = Ok (tt, s') /\ same_engine s' s /\
     count_event
       (io_warn "The method does not require a minimizer. The provided minimizer will not be used.")
       (events s')
     = S (count_event
       (io_warn "The method does not require a minimizer. The provided minimizer will not be used.")
       (events s))) /\
  match update s, (register_minimizer ;;; update) s with
  | Ok (_, a), Ok (_, b) => same_engine b a
  | Throw m, Throw m' => m = m'
  | _, _ => False
  end.
Proof.
  split.
  - eexists. split; [reflexivity|]. split; [apply same_engine_events|].
    cbn [with_events events]. unfold count_event.
    rewrite count_occ_app. cbn [count_occ].
    destruct (event_eq_dec _ _) as [_ | N]; [lia | now contradiction N].
  - unfold bind, register_minimizer, emit, modify.
    rewrite !update_run. cbn [hyper with_events].
    destruct (check_failure (hyper s)); reflexivity.
Qed.

(** *** How [update] and [compute_gradient] compose *)

(** X7. After an [update()] that returned, [compute_gradient()] always
    returns: it recomputes the derivative quantities from the fresh
    factorisation, raises the gradient flag and leaves the gradient-stale
    flag clear.  A [compute_gradient()] that follows a returning
    [compute_gradient()] changes nothing. *)
Theorem compute_gradient_after_update :
  (forall s s1 : FITCInferenceMethod,
     update s = Ok (tt, s1) ->
     compute_gradient s1 = Ok (tt, after_deriv s1) /\
     gradient_dirty (after_deriv s1) = false /\
     factors (after_deriv s1) = factors s1 /\
     m_alpha (after_deriv s1) = m_alpha s1) /\
  (forall s s' : FITCInferenceMethod,
     compute_gradient s = Ok (tt, s') -> compute_gradient s' = Ok (tt, s')).
Proof.
  split.
  - intros s s1 H. apply update_inv in H. destruct H as [-> _].
    rewrite compute_gradient_run, Inference_compute_gradient_run,
      after_update_unchanged.
    cbn [after_update m_gradient_update].
    split; [reflexivity|]. split; [|split; reflexivity].
    unfold gradient_dirty. now rewrite after_deriv_unchanged.
  - exact compute_gradient_twice.
Qed.

(** *** The posterior accessors called again *)

Lemma compute_gradient_clean (s : FITCInferenceMethod) :
  gradient_dirty s = false -> compute_gradient s = Ok (tt, s).
Proof.
  intros H. unfold gradient_dirty in H. apply orb_false_iff in H.
  destruct H as [Hh Hg]. apply negb_false_iff in Hg.
  now rewrite compute_gradient_run, Inference_compute_gradient_run, Hh, Hg.
Qed.

(** X8. A posterior accessor called again on the engine it left returns
    the same result and leaves that engine exactly as it is, its event log
    included: [get_posterior_mean()] and [get_posterior_covariance()]
    recompute their output from the cache without any call to a
    provider. *)
Theorem posterior_accessors_repeatable :
  (forall (s s' : FITCInferenceMethod) (mu : SGVector),
     get_posterior_mean s = Ok (mu, s') ->
     get_posterior_mean s' = Ok (mu, s')) /\
  (forall (s s' : FITCInferenceMethod) (S : SGMatrix),
     get_posterior_covariance s = Ok (S, s') ->
     get_posterior_covariance s' = Ok (S, s')).
Proof.
  split.
  - intros s s' mu. rewrite !get_posterior_mean_run. unfold bind.
    destruct (compute_gradient s) as [[[] s1] | msg] eqn:E; [|discriminate].
    intros H. inversion H. subst mu s'. clear H.
    apply compute_gradient_inv in E. destruct E as (Hd & _).
    rewrite (compute_gradient_clean (with_mu (posterior_mean_of s1) s1) Hd).
    reflexivity.
  - intros s s' S. rewrite !get_posterior_covariance_run. unfold bind.
    destruct (compute_gradient s) as [[[] s1] | msg] eqn:E; [|discriminate].
    intros H. inversion H. subst S s'. clear H.
    apply compute_gradient_inv in E. destruct E as (Hd & _).
    rewrite (compute_gradient_clean
               (with_Sigma (posterior_covariance_of s1) s1) Hd).
    reflexivity.
Qed.

(** *** The marginal likelihood and the gradient computations *)

Lemma nlml_value_clean (s : FITCInferenceMethod) :
  parameter_hash_changed s = false ->
  value_of (get_negative_log_marginal_likelihood s) = Ok (nlml_formula_of s).
Proof. intros H. now rewrite get_nlml_unchanged. Qed.

Lemma nlml_after_compute_gradient (s : FITCInferenceMethod) :
  match compute_gradient s with
  | Ok (_, s1) =>
      parameter_hash_changed s1 = false /\
      value_of (get_negative_log_marginal_likelihood s)
      = Ok (nlml_formula_of s1)
  | Throw msg =>
      value_of (get_negative_log_marginal_likelihood s) = Throw msg
  end.
Proof.
  rewrite compute_gradient_run, Inference_compute_gradient_run, get_nlml_run.
  unfold bind.
  destruct (parameter_hash_changed s) eqn:E.
  - rewrite update_run. destruct (check_failure (hyper s)); [reflexivity|].
    cbn [after_update m_gradient_update].
    split; [apply after_deriv_unchanged | reflexivity].
  - unfold ret. destruct (m_gradient_update s).
    + split; [exact E | reflexivity].
    + split; [apply after_deriv_unchanged | reflexivity].
Qed.

(** X9. The value of the negative log marginal likelihood is the same
    whether it is asked for directly or after [compute_gradient()],
    [get_posterior_mean()] or [get_posterior_covariance()]: the gradient
    and posterior computations change nothing the marginal likelihood
    reads, and all of them fail together. *)
Theorem nlml_unaffected_by_gradient_paths (s : FITCInferenceMethod) :
  value_of ((compute_gradient ;;; get_negative_log_marginal_likelihood) s)
    = value_of (get_negative_log_marginal_likelihood s) /\
  value_of ((get_posterior_mean ;;; get_negative_log_marginal_likelihood) s)
    = value_of (get_negative_log_marginal_likelihood s) /\
  value_of ((get_posterior_covariance ;;;
             get_negative_log_marginal_likelihood) s)
    = value_of (get_negative_log_marginal_likelihood s).
Proof.
  pose proof (nlml_after_compute_gradient s) as H.
  split; [|split].
  - unfold bind.
    destruct (compute_gradient s) as [[[] s1] | msg]; [|now rewrite H].
    destruct H as [Hc ->]. now apply nlml_value_clean.
  - unfold bind at 1. rewrite get_posterior_mean_run. unfold bind.
    destruct (compute_gradient s) as [[[] s1] | msg]; [|now rewrite H].
    destruct H as [Hc ->].
    now rewrite (nlml_value_clean (with_mu (posterior_mean_of s1) s1) Hc).
  - unfold bind at 1. rewrite get_posterior_covariance_run. unfold bind.
    destruct (compute_gradient s) as [[[] s1] | msg]; [|now rewrite H].
    destruct H as [Hc ->].
    now rewrite (nlml_value_clean
                   (with_Sigma (posterior_covariance_of s1) s1) Hc).
Qed.

(** *** The posterior covariance and the targets *)

Lemma covariance_inputs_ext (h1 h2 : Hyper) (k : Kernels) :
  same_covariance_inputs h1 h2 ->
  scale_sq h1 = scale_sq h2 /\
  V_of h1 k = V_of h2 k /\
  chol_utr_of (sigma h1) h1 k = chol_utr_of (sigma h2) h2 k.
Proof.
  intros (H1 & H2 & H3 & _).
  unfold chol_utr_of, t_of, g_sn2_of, V_of, chol_uu_of, chol_Luu, scale_sq.
  now rewrite H1, H2, H3.
Qed.

Lemma check_failure_ext (h1 h2 : Hyper) :
  same_covariance_inputs h1 h2 -> check_failure h1 = check_failure h2.
Proof.
  intros (_ & _ & _ & H4 & H5 & H6 & _).
  unfold check_failure. now rewrite H4, H5, H6.
Qed.

(** X12. On two engines whose hash has changed and whose settings agree on
    the scale, the inducing noise, the likelihood noise, the types of
    likelihood and labels and the covariance blocks,
    [get_posterior_covariance()] returns the same matrix (or fails with the
    same message): the posterior covariance depends neither on the targets
    nor on the prior mean. *)
Theorem posterior_covariance_ignores_targets (s1 s2 : FITCInferenceMethod) :
  parameter_hash_changed s1 = true ->
  parameter_hash_changed s2 = true ->
  same_covariance_inputs (hyper s1) (hyper s2) ->
  value_of (get_posterior_covariance s1)
  = value_of (get_posterior_covariance s2).
Proof.
  intros Hc1 Hc2 Hs.
  rewrite !get_posterior_covariance_run. unfold bind.
  rewrite !compute_gradient_run, !Inference_compute_gradient_run, Hc1, Hc2,
    !update_run, (check_failure_ext Hs).
  destruct (check_failure (hyper s2)); [reflexivity|].
  cbn [after_update m_gradient_update value_of]. f_equal.
  unfold posterior_covariance_of, posterior_part1, posterior_part2.
  cbn [after_deriv after_update hyper kernels factors factors_of m_V
       m_chol_utr m_kuu m_ktrtr_diag].
  destruct Hs as (H1 & H2 & H3 & H4 & H5 & H6 & H7 & H8).
  rewrite H6, H7, H8.
  assert (Hs : same_covariance_inputs (hyper s1) (hyper s2))
    by (repeat split; assumption).
  destruct (covariance_inputs_ext
              (mkKernels (kernel_uu (hyper s2)) (kernel_tru (hyper s2))
                         (kernel_diag (hyper s2))) Hs) as (E1 & E2 & E3).
  now rewrite E1, E2, E3.
Qed.

(** *** Calls into the providers *)

(** X14. An [update()] that returns logs its trace messages "entering" and
    "leaving" once each and asks the likelihood for its noise, the labels
    for the targets and the mean function for its vector exactly once
    each.  A [compute_gradient()] on an engine whose hash is current never
    asks the likelihood and logs no trace; it asks for the targets and the
    mean vector once each when the gradient flag is down and not at all
    when it is up. *)
Theorem provider_calls :
  (forall s s' : FITCInferenceMethod,
     update s = Ok (tt, s') ->
     forall e : event,
       In e [SG_TRACE "entering"; SG_TRACE "leaving"; call_get_sigma;
             call_get_labels; call_get_mean_vector] ->
       count_event e (events s') = S (count_event e (events s))) /\
  (forall s s' : FITCInferenceMethod,
     parameter_hash_changed s = false ->
     compute_gradient s = Ok (tt, s') ->
     let k := if m_gradient_update s then 0 else 1 in
     count_event call_get_sigma (events s')
       = count_event call_get_sigma (events s) /\
     count_event (SG_TRACE "entering") (events s')
       = count_event (SG_TRACE "entering") (events s) /\
     count_event call_get_labels (events s')
       = k + count_event call_get_labels (events s) /\
     count_event call_get_mean_vector (events s')
       = k + count_event call_get_mean_vector (events s)).
Proof.
  split.
  - intros s s' H e He. apply update_inv in H. destruct H as [-> _].
    cbn [after_update events]. unfold count_event. rewrite count_occ_app.
    cbn [In] in He.
    destruct He as [<- | [<- | [<- | [<- | [<- | []]]]]];
      vm_compute count_occ at 2; lia.
  - intros s s' Hc. rewrite compute_gradient_run, Inference_compute_gradient_run,
      Hc.
    destruct (m_gradient_update s); intros H; inversion H; subst s'; cbn zeta.
    + repeat split.
    + cbn [after_deriv events]. unfold count_event. rewrite !count_occ_app.
      repeat split; vm_compute count_occ at 2; lia.
Qed.

(** *** [update_deriv]: shapes *)

(** X6. When [compute_gradient()] returns on an engine whose hash had
    changed, with [m] the number of rows of Kuu and [n] the length of the
    training diagonal: [al] has as many entries as the mean vector, [B] is
    [m] x (columns of Ktru), [w] has [m] entries and [Rvdd] is [m] x [n];
    the gradient flag is up. *)
Theorem compute_gradient_shapes (s s' : FITCInferenceMethod) :
  parameter_hash_changed s = true ->
  compute_gradient s = Ok (tt, s') ->
  let h := hyper s in
  let m := num_rows (kernel_uu h) in
  let n := vlen (kernel_diag h) in
  vlen (m_al (derivs s')) = vlen (mean_vector h) /\
  has_shape (m_B (derivs s')) m (num_cols (kernel_tru h)) /\
  vlen (m_w (derivs s')) = m /\
  has_shape (m_Rvdd (derivs s')) m n /\
  m_gradient_update s' = true.
Proof.
  intros Hc H h m n.
  rewrite compute_gradient_run, Inference_compute_gradient_run, Hc,
    update_run in H.
  destruct (check_failure (hyper s)); [discriminate|].
  cbn [after_update m_gradient_update] in H. inversion H. subst s'.
  cbn [after_deriv after_update derivs derivs_of hyper kernels factors m_al
       m_B m_w m_Rvdd m_gradient_update].
  fold h.
  split; [apply length_assign_vec|].
  split; [apply has_shape_assign_mat|].
  split; [apply length_assign_vec|].
  split; [|reflexivity].
  replace n with (vlen (m_t (factors_of (sigma h) h
             (mkKernels (kernel_uu h) (kernel_tru h) (kernel_diag h))
             (labels h) (mean_vector h)))).
  - apply has_shape_assign_mat.
  - cbn [factors_of m_t]. unfold t_of. apply length_assign_vec.
Qed.

(** *** [update] reads nothing it caches *)

(** X13. What [update()] computes depends on the hyperparameters and the
    answers of the providers only, never on what the engine had cached:
    on two engines with the same settings it fails with the same message
    or leaves the same covariance blocks, factorisation, [alpha], recorded
    hash and gradient flag.  In particular a second [update()] in a row
    leaves the same engine but for the event log. *)
Theorem update_reads_only_settings :
  (forall s1 s2 : FITCInferenceMethod,
     hyper s1 = hyper s2 ->
     match update s1, update s2 with
     | Ok (_, a), Ok (_, b) =>
         kernels a = kernels b /\ factors a = factors b /\
         m_alpha a = m_alpha b /\ m_hash a = m_hash b /\
         m_gradient_update a = m_gradient_update b
     | Throw m1, Throw m2 => m1 = m2
     | _, _ => False
     end) /\
  (forall s s1 : FITCInferenceMethod,
     update s = Ok (tt, s1) ->
     exists s2, update s1 = Ok (tt, s2) /\ same_engine s2 s1).
Proof.
  split.
  - intros s1 s2 H. rewrite !update_run, H.
    destruct (check_failure (hyper s2)); [reflexivity|].
    unfold after_update. rewrite H. cbn. repeat split.
  - intros s s1 H. apply update_inv in H. destruct H as [-> Hc].
    exists (after_update (after_update s)).
    rewrite update_run. cbn [after_update hyper]. rewrite Hc.
    split; reflexivity.
Qed.

(** *** The posterior mean and the derivative quantities *)

(** X15. [get_posterior_mean()] reads the derivative quantities only
    through the length of [al]: two engines that agree on the settings,
    the recorded hash, the covariance blocks and [alpha], and whose [al]
    has as many entries as the mean vector, return the same posterior
    mean, whatever the entries of [al], [B], [w], [Rvdd] and the gradient
    flags are. *)
Theorem posterior_mean_reads_al_length (s1 s2 : FITCInferenceMethod) :
  hyper s1 = hyper s2 -> m_hash s1 = m_hash s2 ->
  kernels s1 = kernels s2 -> m_alpha s1 = m_alpha s2 ->
  vlen (m_al (derivs s1)) = vlen (mean_vector (hyper s1)) ->
  vlen (m_al (derivs s2)) = vlen (mean_vector (hyper s2)) ->
  value_of (get_posterior_mean s1) = value_of (get_posterior_mean s2).
Proof.
  intros Hh Hm Hk Ha L1 L2.
  rewrite !get_posterior_mean_run. unfold bind.
  rewrite !compute_gradient_run, !Inference_compute_gradient_run.
  assert (E : parameter_hash_changed s1 = parameter_hash_changed s2)
    by (unfold parameter_hash_changed; now rewrite Hh, Hm).
  rewrite <- E. destruct (parameter_hash_changed s1).
  - rewrite !update_run, <- Hh.
    destruct (check_failure (hyper s1)); [reflexivity|].
    cbn [after_update m_gradient_update value_of]. f_equal.
    unfold posterior_mean_of.
    cbn [after_deriv after_update hyper kernels m_alpha derivs derivs_of
         m_al].
    rewrite !length_assign_vec. now rewrite <- Hh.
  - assert (G : forall s : FITCInferenceMethod,
              vlen (m_al (derivs s)) = vlen (mean_vector (hyper s)) ->
              posterior_mean_of (after_deriv s) = posterior_mean_of s).
    { intros s L. unfold posterior_mean_of.
      cbn [after_deriv hyper kernels m_alpha derivs derivs_of m_al].
      now rewrite length_assign_vec, L. }
    assert (P : posterior_mean_of s1 = posterior_mean_of s2).
    { unfold posterior_mean_of. now rewrite Hh, Hk, Ha, L1, L2, Hh. }
    destruct (m_gradient_update s1), (m_gradient_update s2);
      cbn [value_of]; f_equal; rewrite ?(G s1 L1), ?(G s2 L2); exact P.
Qed.

End MoreProperties.

(** ** The remaining methods over the reals *)

Section MoreScenario.
Local Open Scope R_scope.

(** *** The properties applied to the two-point scenario *)

Lemma update_2x1 : update engine_2x1 = Ok (tt, after_update engine_2x1).
Proof. now rewrite update_run. Qed.

Lemma hash_changed_2x1 : parameter_hash_changed engine_2x1 = true.
Proof. apply hash_changed_fresh. cbn. lra. Qed.

Lemma diagonal_vector_constant_witness :
  let v : @SGVector Float64_R := [(1 / 1)%R; (1 / 1)%R] in
  let s' := with_events (events (after_update engine_2x1) ++ [call_get_sigma])
                        (after_update engine_2x1) in
  get_diagonal_vector engine_2x1 = Ok (v, s') /\
  (1 < vlen v)%nat /\
  nth 1 v 0 = 1 / 1 /\
  parameter_hash_changed s' = false.
Proof.
  intros v s'.
  assert (H : get_diagonal_vector engine_2x1 = Ok (v, s')).
  { unfold get_diagonal_vector. unfold bind at 1, get at 1. unfold bind at 1.
    rewrite hash_changed_2x1, update_2x1. unfold bind at 1.
    now rewrite get_sigma_gaussian by reflexivity. }
  destruct (@diagonal_vector_constant _ _ engine_2x1 _ _ H) as (_ & Hn & _ & Hc & _).
  assert (L : (1 < vlen v)%nat) by (cbn; lia).
  split; [exact H|]. split; [exact L|]. split; [exact (Hn 1%nat L) | exact Hc].
Defined.

Lemma check_members_errors_witness :
  let student := fresh_engine hyper_2x1_other_model (0, 0, 0) in
  let binary := fresh_engine hyper_2x1_other_labels (0, 0, 0) in
  (SingleFITCInference_check_members student = Ok (tt, student) /\
   model_type (hyper student) <> LT_GAUSSIAN /\
   update student
   = Throw "FITC inference method can only use Gaussian likelihood function") /\
  (SingleFITCInference_check_members binary = Ok (tt, binary) /\
   label_type (hyper binary) <> LT_REGRESSION /\
   update binary = Throw "Labels must be type of RegressionLabels") /\
  (SingleFITCInference_check_members engine_2x1 = Ok (tt, engine_2x1) /\
   check_members engine_2x1 = Ok (tt, engine_2x1)).
Proof.
  intros student binary.
  assert (B1 : SingleFITCInference_check_members student = Ok (tt, student))
    by reflexivity.
  assert (B2 : SingleFITCInference_check_members binary = Ok (tt, binary))
    by reflexivity.
  assert (B3 : SingleFITCInference_check_members engine_2x1
               = Ok (tt, engine_2x1)) by reflexivity.
  assert (N1 : model_type (hyper student) <> LT_GAUSSIAN) by discriminate.
  assert (N2 : label_type (hyper binary) <> LT_REGRESSION) by discriminate.
  split; [|split].
  - split; [exact B1|]. split; [exact N1|].
    exact (proj2 (proj1 (@check_members_errors _ _ student B1) N1)).
  - split; [exact B2|]. split; [exact N2|].
    exact (proj2 (proj1 (proj2 (@check_members_errors _ _ binary B2))
                        eq_refl N2)).
  - split; [exact B3|].
    exact (proj2 (proj2 (@check_members_errors _ _ engine_2x1 B3))
                 eq_refl eq_refl).
Defined.

Lemma update_effects_witness :
  let s' := after_update engine_2x1 in
  update engine_2x1 = Ok (tt, s') /\
  m_gradient_update s' = false /\ gradient_dirty s' = true /\
  derivs s' = derivs engine_2x1.
Proof.
  intros s'.
  destruct (@update_effects _ _ engine_2x1 _ update_2x1)
    as (_ & _ & Hg & _ & Hd & He & _).
  split; [exact update_2x1|]. split; [exact Hg|]. split; [exact Hd | exact He].
Defined.

Lemma update_shapes_witness :
  let f := factors (after_update engine_2x1) in
  update engine_2x1 = Ok (tt, after_update engine_2x1) /\
  has_shape (m_chol_uu f) 1 1 /\ has_shape (m_V f) 1 2 /\
  vlen (m_t f) = 2%nat /\ has_shape (m_chol_utr f) 1 1 /\
  vlen (m_be f) = 1%nat /\ vlen (m_alpha (after_update engine_2x1)) = 1%nat.
Proof.
  intros f.
  destruct (@update_shapes _ _ engine_2x1 _ update_2x1)
    as (H1 & H2 & H3 & H4 & _ & H6 & _ & H8).
  split; [exact update_2x1|]. split; [exact H1|]. split; [exact H2|].
  split; [exact H3|]. split; [exact H4|]. split; [exact H6 | exact H8].
Defined.

Lemma compute_gradient_shapes_witness :
  let d := derivs (after_deriv (after_update engine_2x1)) in
  parameter_hash_changed engine_2x1 = true /\
  compute_gradient engine_2x1
    = Ok (tt, after_deriv (after_update engine_2x1)) /\
  vlen (m_al d) = 2%nat /\ has_shape (m_B d) 1 2 /\
  vlen (m_w d) = 1%nat /\ has_shape (m_Rvdd d) 1 2.
Proof.
  intros d.
  destruct (@compute_gradient_shapes _ _ engine_2x1 _ hash_changed_2x1
              compute_gradient_2x1) as (H1 & H2 & H3 & H4 & _).
  split; [exact hash_changed_2x1|]. split; [exact compute_gradient_2x1|].
  split; [exact H1|]. split; [exact H2|]. split; [exact H3 | exact H4].
Defined.

Lemma compute_gradient_after_update_witness :
  let s1 := after_update engine_2x1 in
  update engine_2x1 = Ok (tt, s1) /\
  compute_gradient s1 = Ok (tt, after_deriv s1) /\
  compute_gradient (after_deriv s1) = Ok (tt, after_deriv s1).
Proof.
  intros s1.
  destruct (@compute_gradient_after_update Float64_R Hashing_R) as [H1 H2].
  destruct (H1 engine_2x1 s1 update_2x1) as (Hc & _).
  split; [exact update_2x1|]. split; [exact Hc|].
  exact (H2 s1 _ Hc).
Defined.


Lemma posterior_accessors_repeatable_witness :
  let s1 := after_deriv (after_update engine_2x1) in
  let mu := posterior_mean_of s1 in
  let S := posterior_covariance_of s1 in
  get_posterior_mean engine_2x1 = Ok (mu, with_mu mu s1) /\
  get_posterior_mean (with_mu mu s1) = Ok (mu, with_mu mu s1) /\
  get_posterior_covariance engine_2x1 = Ok (S, with_Sigma S s1) /\
  get_posterior_covariance (with_Sigma S s1) = Ok (S, with_Sigma S s1).
Proof.
  intros s1 mu S.
  destruct (@posterior_accessors_repeatable Float64_R Hashing_R) as [H1 H2].
  assert (Hm : get_posterior_mean engine_2x1 = Ok (mu, with_mu mu s1))
    by (rewrite get_posterior_mean_run; unfold bind;
        now rewrite compute_gradient_2x1).
  assert (Hc : get_posterior_covariance engine_2x1 = Ok (S, with_Sigma S s1))
    by (rewrite get_posterior_covariance_run; unfold bind;
        now rewrite compute_gradient_2x1).
  split; [exact Hm|]. split; [exact (H1 _ _ _ Hm)|].
  split; [exact Hc | exact (H2 _ _ _ Hc)].
Defined.

Lemma posterior_covariance_ignores_targets_witness :
  let s2 := fresh_engine hyper_2x1_other_targets (0, 0, 0) in
  parameter_hash_changed engine_2x1 = true /\
  parameter_hash_changed s2 = true /\
  same_covariance_inputs (hyper engine_2x1) (hyper s2) /\
  labels (hyper engine_2x1) <> labels (hyper s2) /\
  value_of (get_posterior_covariance engine_2x1)
  = value_of (get_posterior_covariance s2).
Proof.
  intros s2.
  assert (H2 : parameter_hash_changed s2 = true)
    by (apply hash_changed_fresh; cbn; lra).
  assert (Hs : same_covariance_inputs (hyper engine_2x1) (hyper s2))
    by (repeat split).
  split; [exact hash_changed_2x1|]. split; [exact H2|]. split; [exact Hs|].
  split.
  - intros E. inversion E. lra.
  - exact (@posterior_covariance_ignores_targets _ _ engine_2x1 s2
             hash_changed_2x1 H2 Hs).
Defined.

Lemma update_reads_only_settings_witness :
  let s1 := after_update engine_2x1 in
  update engine_2x1 = Ok (tt, s1) /\
  exists s2, update s1 = Ok (tt, s2) /\ same_engine s2 s1.
Proof.
  intros s1.
  destruct (@update_reads_only_settings Float64_R Hashing_R) as [_ H].
  split; [exact update_2x1 | exact (H engine_2x1 s1 update_2x1)].
Defined.

Lemma provider_calls_witness :
  let s1 := after_update engine_2x1 in
  update engine_2x1 = Ok (tt, s1) /\
  count_event call_get_sigma (events s1) = 1%nat /\
  parameter_hash_changed s1 = false /\
  compute_gradient s1 = Ok (tt, after_deriv s1) /\
  count_event call_get_sigma (events (after_deriv s1)) = 1%nat /\
  count_event call_get_labels (events (after_deriv s1)) = 2%nat.
Proof.
  intros s1.
  destruct (@provider_calls Float64_R Hashing_R) as [H1 H2].
  assert (Hs : count_event call_get_sigma (events s1) = 1%nat).
  { rewrite (H1 engine_2x1 s1 update_2x1 call_get_sigma).
    - reflexivity.
    - cbn [In]. auto. }
  assert (Hl : count_event call_get_labels (events s1) = 1%nat).
  { rewrite (H1 engine_2x1 s1 update_2x1 call_get_labels).
    - reflexivity.
    - cbn [In]. auto 6. }
  assert (Hh : parameter_hash_changed s1 = false)
    by apply after_update_unchanged.
  assert (Hc : compute_gradient s1 = Ok (tt, after_deriv s1)).
  { rewrite compute_gradient_run, Inference_compute_gradient_run, Hh.
    reflexivity. }
  destruct (H2 s1 _ Hh Hc) as (E1 & _ & E3 & _).
  split; [exact update_2x1|]. split; [exact Hs|]. split; [exact Hh|].
  split; [exact Hc|]. split.
  - rewrite E1. exact Hs.
  - rewrite E3, Hl. reflexivity.
Defined.

Lemma posterior_mean_reads_al_length_witness :
  let s1 := computed_engine_2x1 in
  let s2 := other_derivs_engine_2x1 in
  gradient_dirty s1 = false /\ gradient_dirty s2 = false /\
  derivs s1 <> derivs s2 /\
  vlen (m_al (derivs s1)) = vlen (mean_vector (hyper s1)) /\
  vlen (m_al (derivs s2)) = vlen (mean_vector (hyper s2)) /\
  get_posterior_mean s2
  = Ok (posterior_mean_of s2, with_mu (posterior_mean_of s2) s2) /\
  value_of (get_posterior_mean s1) = value_of (get_posterior_mean s2).
Proof.
  intros s1 s2.
  assert (L1 : vlen (m_al (derivs s1)) = vlen (mean_vector (hyper s1))).
  { unfold s1, computed_engine_2x1.
    cbn [after_deriv derivs derivs_of m_al hyper].
    now rewrite length_assign_vec. }
  assert (L2 : vlen (m_al (derivs s2)) = vlen (mean_vector (hyper s2)))
    by reflexivity.
  assert (M : get_posterior_mean s2
              = Ok (posterior_mean_of s2, with_mu (posterior_mean_of s2) s2)).
  { rewrite get_posterior_mean_run. unfold bind.
    now rewrite (compute_gradient_clean s2 other_derivs_engine_2x1_clean). }
  split; [exact computed_engine_2x1_clean|].
  split; [exact other_derivs_engine_2x1_clean|].
  split; [exact derivs_2x1_differ|].
  split; [exact L1|]. split; [exact L2|]. split; [exact M|].
  exact (@posterior_mean_reads_al_length _ _ s1 s2 eq_refl eq_refl eq_refl
           eq_refl L1 L2).
Defined.

End MoreScenario.
